(** * NetCDF to Hyper: the notebook's extraction loop and table writer

    A shallow embedding of [NetCDF/NetCDF to Hyper.ipynb]: the derived
    output path (cell 5), the reading of the grid dimensions (cells 7 and
    11), the triple loop that fills the two lists [data] and [data_geom]
    (cells 12 and 14) and the table writer (cell 16). *)

From Stdlib Require Import List String Ascii ZArith Arith Bool Lia.
From Stdlib Require Import DecimalString DecimalNat.
From Stdlib Require Import PrimFloat.
From Corelib Require Import SpecFloat FloatOps.
From stdpp Require Import gmap strings list fin_maps.
Import ListNotations.

Local Open Scope string_scope.

(** ** Python strings *)

Module PyStr.

(** [format(n)] of a non-negative Python [int], as an f-string replacement
    field [{n}] renders it: the decimal digits, ["0"] for zero. *)
Definition str (n : nat) : string := NilEmpty.string_of_uint (Nat.to_uint n).

(** [s[:stop]] on a string, with Python's treatment of a negative or too
    large bound: a negative [stop] counts from the end and is clamped at 0,
    a non-negative one is clamped at [len(s)]. *)
Definition slice_to (s : string) (stop : Z) : string :=
  let len := Z.of_nat (String.length s) in
  let stop' := if (stop <? 0)%Z then Z.max 0 (stop + len) else Z.min stop len in
  substring 0 (Z.to_nat stop') s.

(** No character of [s] is the separator ['-']. *)
Fixpoint dashfree (s : string) : bool :=
  match s with
  | EmptyString => true
  | String c s' => negb (Ascii.eqb c "-") && dashfree s'
  end.

End PyStr.

(** The id string of a cell, [f'{y}-{x}'] (cell 14, both appends). *)
Definition combine (y x : nat) : string :=
  PyStr.str y ++ "-" ++ PyStr.str x.

(** ** Exceptions *)

(** The exceptions the notebook's calls can raise. Nothing in the notebook
    catches one: the first one raised ends the run. *)
Inductive exn : Type :=
| FileNotFoundError
| OSError
| KeyError (key : string)
| IndexError
| HyperException.

Inductive result (A : Type) : Type :=
| Ok (a : A)
| Raise (e : exn).

Arguments Ok {A} a.
Arguments Raise {A} e.

#[global] Instance result_ret : MRet result := fun A a => Ok a.

#[global] Instance result_bind : MBind result := fun A B f m =>
  match m with
  | Ok a => f a
  | Raise e => Raise e
  end.

(** [for v in l: body], the body threading the state [S]; an exception in
    the body leaves the loop. *)
Fixpoint for_each {S : Type} (l : list nat) (body : nat -> S -> result S)
    (st : S) : result S :=
  match l with
  | [] => Ok st
  | v :: l' => st' ← body v st; for_each l' body st'
  end.

(** [range(lo, hi)]. *)
Definition range (lo hi : nat) : list nat := seq lo (hi - lo).

(** ** Python values and arrays *)

(** The values a record holds: a string, an integer, a float, or numpy's
    [masked] constant (what indexing a masked array yields at a masked
    entry). *)
Inductive pyval : Type :=
| PStr (s : string)
| PInt (z : Z)
| PFloat (f : float)
| PMasked.

(** A record is the Python list the loop appends: [[id, lat, lon]] or
    [[id, time, value]]. *)
Definition row : Type := list pyval.

(** [a[i]] for [i >= 0]: out of range raises [IndexError]. *)
Definition getitem {A : Type} (a : list A) (i : nat) : result A :=
  match a !! i with
  | Some v => Ok v
  | None => Raise IndexError
  end.

(** A numpy masked array: the data and a boolean mask of the same shape,
    [true] where the entry is masked. *)
Record masked (D M : Type) : Type := { ma_data : D; mask : M }.

Arguments ma_data {D M} _.
Arguments mask {D M} _.

(** [a[i]] on a masked array of rank at least one: the data and the mask
    are indexed together. *)
Definition ma_getitem {D M : Type} (a : masked (list D) (list M)) (i : nat)
    : result (masked D M) :=
  d ← getitem (ma_data a) i;
  m ← getitem (mask a) i;
  mret {| ma_data := d; mask := m |}.

(** A rank-0 result of indexing: the number, or [masked]. *)
Definition ma_scalar (a : masked float bool) : pyval :=
  if mask a then PMasked else PFloat (ma_data a).

(** Whether any entry of a rank-2 mask is set. *)
Definition any_masked (m : list (list bool)) : bool :=
  existsb (existsb id) m.

(** The [.mask] attribute of a rank-2 masked array as netCDF4 builds it
    for the slice it reads: the boolean array when some entry of the slice
    is masked, and numpy's scalar [nomask] ([None] here) when none is. *)
Definition mask_attribute (s : masked (list (list float)) (list (list bool)))
    : option (list (list bool)) :=
  if any_masked (mask s) then Some (mask s) else None.

(** ** The input file *)

(** What [netCDF4.Dataset] exposes of the file: the dimension sizes by
    name, and the four variables the notebook reads ([None] when the file
    has no variable of that name). *)
Record Dataset : Type := {
  dimensions : gmap string nat;
  var_time : option (list Z);
  var_lat : option (masked (list (list float)) (list (list bool)));
  var_lon : option (masked (list (list float)) (list (list bool)));
  var_SMI : option (masked (list (list (list float))) (list (list (list bool))))
}.

(** [nc.dimensions[name].size] *)
Definition dimension_size (nc : Dataset) (name : string) : result nat :=
  match dimensions nc !! name with
  | Some n => Ok n
  | None => Raise (KeyError name)
  end.

(** [nc.variables[name]] for a variable held in field [v]. *)
Definition variable {A : Type} (v : option A) (name : string) : result A :=
  match v with
  | Some a => Ok a
  | None => Raise (KeyError name)
  end.

(** [nc.variables['lat'][y][x]]: the number, or [masked] where the file
    has no latitude. *)
Definition lat_at (nc : Dataset) (y x : nat) : result pyval :=
  a ← variable (var_lat nc) "lat"; r ← ma_getitem a y; e ← ma_getitem r x;
  mret (ma_scalar e).

(** [nc.variables['lon'][y][x]]: the number, or [masked] where the file
    has no longitude. *)
Definition lon_at (nc : Dataset) (y x : nat) : result pyval :=
  a ← variable (var_lon nc) "lon"; r ← ma_getitem a y; e ← ma_getitem r x;
  mret (ma_scalar e).

(** [nc.variables['time'][i]] *)
Definition time_at (nc : Dataset) (i : nat) : result pyval :=
  a ← variable (var_time nc) "time"; t ← getitem a i;
  mret (PInt t).

(** [nc.variables['SMI'][i].mask[y][x]]: indexing the scalar [nomask] of
    a slice without a masked entry raises [IndexError]. *)
Definition mask_at (nc : Dataset) (i y x : nat) : result bool :=
  a ← variable (var_SMI nc) "SMI"; s ← ma_getitem a i;
  match mask_attribute s with
  | Some m => r ← getitem m y; getitem r x
  | None => Raise IndexError
  end.

(** [nc.variables['SMI'][i][y][x]] *)
Definition SMI_at (nc : Dataset) (i y x : nat) : result pyval :=
  a ← variable (var_SMI nc) "SMI"; s ← ma_getitem a i;
  r ← ma_getitem s y; e ← ma_getitem r x;
  mret (ma_scalar e).

(** ** The extraction loop (cells 12 and 14) *)

(** The two module-level lists. *)
Record lists : Type := { data : list row; data_geom : list row }.

(** Cell 12: [data = []], [data_geom = []]. *)
Definition empty_lists : lists := {| data := []; data_geom := [] |}.

(** [data_geom.append(r)] *)
Definition data_geom_append (r : row) (st : lists) : lists :=
  {| data := data st; data_geom := data_geom st ++ [r] |}.

(** [data.append(r)] *)
Definition data_append (r : row) (st : lists) : lists :=
  {| data := data st ++ [r]; data_geom := data_geom st |}.

(** The body of the innermost loop, for time step [i] and cell [(y, x)]. *)
Definition cell_body (nc : Dataset) (i x y : nat) (st : lists) : result lists :=
  st1 ← (if decide (i = 0)
         then la ← lat_at nc y x;
              lo ← lon_at nc y x;
              mret (data_geom_append [PStr (combine y x); la; lo] st)
         else mret st);
  m ← mask_at nc i y x;
  if bool_decide (m = false)
  then tv ← time_at nc i;
       v ← SMI_at nc i y x;
       mret (data_append [PStr (combine y x); tv; v] st1)
  else mret st1.

(** [for y in range(0, y_size)] for a fixed [i] and [x]. *)
Definition column_loop (nc : Dataset) (y_size : nat) (i x : nat)
    : lists -> result lists :=
  for_each (range 0 y_size) (fun y => cell_body nc i x y).

(** [for x in range(0, x_size)] for a fixed [i]: one time step. *)
Definition time_step (nc : Dataset) (y_size x_size : nat) (i : nat)
    : lists -> result lists :=
  for_each (range 0 x_size) (fun x => column_loop nc y_size i x).

(** Cell 14, [for i in range(0, n_steps)]. The notebook has
    [n_steps = 1] and names the end of this range as the one place to
    edit to collect more time steps. *)
Definition extraction_loop (nc : Dataset) (y_size x_size n_steps : nat)
    : lists -> result lists :=
  for_each (range 0 n_steps) (fun i => time_step nc y_size x_size i).

(** Cells 11, 12 and 14 on an open dataset. *)
Definition extract (nc : Dataset) (n_steps : nat) : result lists :=
  y_size ← dimension_size nc "northing";
  x_size ← dimension_size nc "easting";
  extraction_loop nc y_size x_size n_steps empty_lists.

(** ** The output database (the Hyper API calls of cell 16) *)

(** The column types the notebook declares. *)
Inductive SqlType : Type := text | double.

#[global] Instance SqlType_eq_dec : EqDecision SqlType.
Proof. solve_decision. Defined.

(** [TableDefinition(table_name=TableName(schema, table), columns=[...])] *)
Record TableDefinition : Type := {
  table_name : string * string;
  columns : list (string * SqlType)
}.

(** A value as a column holds it. *)
Inductive sqlval : Type :=
| SqlText (s : string)
| SqlDouble (f : float).

(** The double nearest to an integer (ties to even), as [float(z)] gives
    it for the integers numpy holds. *)
Definition double_of_Z (z : Z) : float :=
  SF2Prim (binary_normalize prec emax z 0 false).

(** A field of a record as its column stores it: a string as text, a
    float as it is, an integer as the nearest double, [masked] as NaN. *)
Definition stored (v : pyval) : sqlval :=
  match v with
  | PStr s => SqlText s
  | PFloat f => SqlDouble f
  | PInt z => SqlDouble (double_of_Z z)
  | PMasked => SqlDouble nan
  end.

(** A table of the database: its columns and the rows inserted so far. *)
Record Table : Type := {
  table_columns : list (string * SqlType);
  table_rows : list (list sqlval)
}.

(** A database: its schemas (namespaces) and its tables by qualified name. *)
Record Database : Type := {
  schemas : gset string;
  tables : gmap (string * string) Table
}.

(** A database that was just created: the default schema, no table. *)
Definition new_database : Database :=
  {| schemas := {["public"]}; tables := ∅ |}.

(** A value the inserter takes for a column of the given type: a string for
    [text]; a float, an integer or [masked] for [double] (the run recorded
    in the notebook puts the integer time values into the [double] column
    [Time]). *)
Definition accepts (t : SqlType) (v : pyval) : bool :=
  match t, v with
  | text, PStr _ => true
  | double, PFloat _ => true
  | double, PInt _ => true
  | double, PMasked => true
  | _, _ => false
  end.

(** A row fits the columns: one accepted value per column. *)
Fixpoint row_fits (cols : list (string * SqlType)) (r : row) : bool :=
  match cols, r with
  | [], [] => true
  | (_, t) :: cols', v :: r' => accepts t v && row_fits cols' r'
  | _, _ => false
  end.

(** [connection.catalog.create_schema(name)] *)
Definition create_schema (name : string) (db : Database) : result Database :=
  if decide (name ∈ schemas db) then Raise HyperException
  else Ok {| schemas := {[name]} ∪ schemas db; tables := tables db |}.

(** [connection.catalog.create_table(definition)] *)
Definition create_table (def : TableDefinition) (db : Database) : result Database :=
  if decide (fst (table_name def) ∈ schemas db) then
    match tables db !! table_name def with
    | Some _ => Raise HyperException
    | None =>
        Ok {| schemas := schemas db;
              tables := <[table_name def :=
                           {| table_columns := columns def; table_rows := [] |}]>
                        (tables db) |}
    end
  else Raise HyperException.

(** [with Inserter(connection, def) as inserter:
       inserter.add_rows(rows); inserter.execute()] *)
Definition insert_rows (def : TableDefinition) (rows : list row) (db : Database)
    : result Database :=
  match tables db !! table_name def with
  | Some t =>
      if decide (table_columns t = columns def) then
        if forallb (row_fits (columns def)) rows then
          Ok {| schemas := schemas db;
                tables := <[table_name def :=
                             {| table_columns := table_columns t;
                                table_rows := table_rows t ++ map (map stored) rows |}]>
                          (tables db) |}
        else Raise HyperException
      else Raise HyperException
  | None => Raise HyperException
  end.

(** ** Files *)

(** What a path holds: a NetCDF file, a Hyper database, anything else (a
    file of another kind, a directory), or nothing with no way to create
    a file there (its directory is missing or cannot be written). *)
Inductive file : Type :=
| NetCDFFile (nc : Dataset)
| HyperFile (db : Database)
| OtherFile
| Unwritable.

(** [netCDF4.Dataset(path)] (cell 7). *)
Definition netCDF4_Dataset (fs : gmap string file) (path : string) : result Dataset :=
  match fs !! path with
  | Some (NetCDFFile nc) => Ok nc
  | Some Unwritable => Raise FileNotFoundError
  | Some _ => Raise OSError
  | None => Raise FileNotFoundError
  end.

Inductive CreateMode : Type :=
| NONE
| CREATE
| CREATE_IF_NOT_EXISTS
| CREATE_AND_REPLACE.

(** A path a database can be created at: nothing is there and a file
    can be created, or a Hyper database is there and can be dropped. *)
Definition destination_usable (fs : gmap string file) (path : string) : bool :=
  match fs !! path with
  | None => true
  | Some (HyperFile _) => true
  | Some _ => false
  end.

(** The database a connection opened on [path] with [mode] starts from;
    a path holding something that is not a Hyper database raises. *)
Definition connect (mode : CreateMode) (path : string) (fs : gmap string file)
    : result Database :=
  match mode, fs !! path with
  | CREATE_AND_REPLACE, None => Ok new_database
  | CREATE_AND_REPLACE, Some (HyperFile _) => Ok new_database
  | CREATE, None => Ok new_database
  | CREATE_IF_NOT_EXISTS, None => Ok new_database
  | CREATE_IF_NOT_EXISTS, Some (HyperFile db) => Ok db
  | NONE, Some (HyperFile db) => Ok db
  | _, _ => Raise HyperException
  end.

(** The statements of a [with] body run in order on the database until
    one raises; what the earlier ones did stays done. *)
Fixpoint run_statements (body : list (Database -> result Database)) (db : Database)
    : Database * result unit :=
  match body with
  | [] => (db, Ok tt)
  | stmt :: body' =>
      match stmt db with
      | Ok db' => run_statements body' db'
      | Raise e => (db, Raise e)
      end
  end.

(** [with Connection(endpoint, create_mode=mode, database=path) as connection:
       body]: the database file is there from the moment the connection
    opens, and holds what the body did when the connection closes. *)
Definition with_Connection (mode : CreateMode) (path : string)
    (body : list (Database -> result Database)) (fs : gmap string file)
    : gmap string file * result unit :=
  match connect mode path fs with
  | Ok db =>
      let '(db', r) := run_statements body db in
      (<[path := HyperFile db']> fs, r)
  | Raise e => (fs, Raise e)
  end.

(** [with HyperProcess(telemetry=...) as hyper:] starting the process
    creates [hyperd.log] in the working directory, or appends to the one
    that is there; an append changes no kind of file, and the text of a
    log is not part of [file]. Where no file can be created none is. *)
Definition HyperProcess_start (fs : gmap string file) : gmap string file :=
  match fs !! "hyperd.log" with
  | Some _ => fs
  | None => <["hyperd.log" := OtherFile]> fs
  end.

(** ** The table writer (cell 16) *)

Definition schema_data : TableDefinition :=
  {| table_name := ("Data", "Data");
     columns := [("ID", text); ("Time", double); ("Value", double)] |}.

Definition schema_geom : TableDefinition :=
  {| table_name := ("Geom", "Geom");
     columns := [("ID", text); ("Latitude", double); ("Longitude", double)] |}.

Definition table_writer (OUTPUT_HYPER : string) (st : lists)
    (fs : gmap string file) : gmap string file * result unit :=
  with_Connection CREATE_AND_REPLACE OUTPUT_HYPER
    [ create_schema "Data";
      create_schema "Geom";
      create_table schema_data;
      create_table schema_geom;
      insert_rows schema_data (data st);
      insert_rows schema_geom (data_geom st) ]
    (HyperProcess_start fs).

(** ** The notebook, top to bottom *)

(** Cell 5: [INPUT_NETCDF[:-3] + '.hyper']. *)
Definition OUTPUT_HYPER (INPUT_NETCDF : string) : string :=
  PyStr.slice_to INPUT_NETCDF (-3) ++ ".hyper".

(** Cells 7 and 11: open the file and read the two grid dimensions. *)
Definition read_stage (fs : gmap string file) (INPUT_NETCDF : string)
    : result (Dataset * nat * nat) :=
  nc ← netCDF4_Dataset fs INPUT_NETCDF;
  y_size ← dimension_size nc "northing";
  x_size ← dimension_size nc "easting";
  mret (nc, y_size, x_size).

(** One run of all the cells on the files [fs]: the files afterwards and
    how the run ended. *)
Definition notebook (INPUT_NETCDF : string) (n_steps : nat) (fs : gmap string file)
    : gmap string file * result unit :=
  match read_stage fs INPUT_NETCDF with
  | Ok (nc, y_size, x_size) =>
      match extraction_loop nc y_size x_size n_steps empty_lists with
      | Ok st => table_writer (OUTPUT_HYPER INPUT_NETCDF) st fs
      | Raise e => (fs, Raise e)
      end
  | Raise e => (fs, Raise e)
  end.

(** ** Well-formed input *)

Definition has_shape2 {A : Type} (rows cols : nat) (a : list (list A)) : bool :=
  (length a =? rows)%nat && forallb (fun r => (length r =? cols)%nat) a.

Definition has_shape3 {A : Type} (n rows cols : nat) (a : list (list (list A))) : bool :=
  (length a =? n)%nat && forallb (has_shape2 rows cols) a.

(** The file declares [northing] and [easting] and holds the four
    variables with the shapes their dimensions give them:
    [time(time)], [lat(northing, easting)], [lon(northing, easting)] and
    [SMI(time, northing, easting)], each mask shaped like its data. *)
Definition well_formed (nc : Dataset) : bool :=
  match dimensions nc !! "northing", dimensions nc !! "easting",
        var_time nc, var_lat nc, var_lon nc, var_SMI nc with
  | Some rows, Some cols, Some t, Some la, Some lo, Some smi =>
      has_shape2 rows cols (ma_data la) && has_shape2 rows cols (mask la)
      && has_shape2 rows cols (ma_data lo) && has_shape2 rows cols (mask lo)
      && has_shape3 (length t) rows cols (ma_data smi)
      && has_shape3 (length t) rows cols (mask smi)
  | _, _, _, _, _, _ => false
  end.

(** Time step [i] of [SMI] has a masked entry. *)
Definition step_has_masked_cell (nc : Dataset) (i : nat) : bool :=
  match var_SMI nc with
  | Some smi =>
      match mask smi !! i with
      | Some m => any_masked m
      | None => false
      end
  | None => false
  end.

(** Each of the first [n_steps] time steps of [SMI] has a masked entry. *)
Definition steps_have_masked_cells (nc : Dataset) (n_steps : nat) : bool :=
  forallb (step_has_masked_cell nc) (range 0 n_steps).

(** The number of time steps the file holds, [len(times)]. *)
Definition n_times (nc : Dataset) : nat :=
  match var_time nc with
  | Some t => length t
  | None => 0
  end.

(** ** What each cell hands to the lists *)

(** The [data] record of time step [i] and cell [(y, x)]: none when the
    cell is masked there. *)
Definition data_rows (nc : Dataset) (i x y : nat) : list row :=
  match mask_at nc i y x, time_at nc i, SMI_at nc i y x with
  | Ok false, Ok tv, Ok v => [[PStr (combine y x); tv; v]]
  | _, _, _ => []
  end.

(** The [data_geom] record of cell [(y, x)], appended at time step 0 only. *)
Definition geom_rows (nc : Dataset) (i x y : nat) : list row :=
  match decide (i = 0), lat_at nc y x, lon_at nc y x with
  | left _, Ok la, Ok lo => [[PStr (combine y x); la; lo]]
  | _, _, _ => []
  end.

(** Every read the loop body makes for [(i, y, x)] succeeds. *)
Definition readable (nc : Dataset) (i x y : nat) : Prop :=
  (i = 0 -> (exists la, lat_at nc y x = Ok la) /\ (exists lo, lon_at nc y x = Ok lo))
  /\ exists m, mask_at nc i y x = Ok m
       /\ (m = false ->
           (exists tv, time_at nc i = Ok tv) /\ (exists v, SMI_at nc i y x = Ok v)).

(** [st] with [d] appended to [data] and [g] to [data_geom]. *)
Definition extend (st : lists) (d g : list row) : lists :=
  {| data := data st ++ d; data_geom := data_geom st ++ g |}.

(** The id of a record: its first field. *)
Definition record_id (r : row) : option string :=
  match r with
  | PStr s :: _ => Some s
  | _ => None
  end.

(** The records one run of the three loops appends to [data]. *)
Definition measurement_rows (nc : Dataset) (y_size x_size n_steps : nat) : list row :=
  i ← range 0 n_steps; x ← range 0 x_size; y ← range 0 y_size; data_rows nc i x y.

(** The records one run of the three loops appends to [data_geom]. *)
Definition geometry_rows (nc : Dataset) (y_size x_size n_steps : nat) : list row :=
  i ← range 0 n_steps; x ← range 0 x_size; y ← range 0 y_size; geom_rows nc i x y.

(** ** The output path in the words of the specification *)

(** [s] with its final [n] characters removed. *)
Definition remove_final (n : nat) (s : string) : string :=
  string_of_list_ascii (rev (drop n (rev (list_ascii_of_string s)))).

(** ** The output database in the words of the specification *)

(** Two tables, [Geom.Geom(ID: text, Latitude: double, Longitude: double)]
    holding the geometry records [g] and
    [Data.Data(ID: text, Time: double, Value: double)] holding the
    measurement records [d], as the columns store them, in their two
    namespaces beside the default one. *)
Definition specified_database (d g : list (list sqlval)) : Database :=
  {| schemas := {[ "public"; "Data"; "Geom" ]};
     tables :=
       {[ ("Geom", "Geom") :=
            {| table_columns :=
                 [("ID", text); ("Latitude", double); ("Longitude", double)];
               table_rows := g |};
          ("Data", "Data") :=
            {| table_columns := [("ID", text); ("Time", double); ("Value", double)];
               table_rows := d |} ]} |}.

(** ** Sample inputs *)

(** A 2 by 2 grid with the single time step 100 and
    [SMI = [[1.0, masked], [2.0, 3.0]]] there; [fill] is what the file
    stores under the mask. *)
Definition scenario_grid (la00 la01 la10 la11 lo00 lo01 lo10 lo11 fill : float)
    : Dataset :=
  {| dimensions := {[ "time" := 1; "northing" := 2; "easting" := 2 ]};
     var_time := Some [100%Z];
     var_lat := Some {| ma_data := [[la00; la01]; [la10; la11]];
                        mask := [[false; false]; [false; false]] |};
     var_lon := Some {| ma_data := [[lo00; lo01]; [lo10; lo11]];
                        mask := [[false; false]; [false; false]] |};
     var_SMI := Some {| ma_data := [[[1%float; fill]; [2%float; 3%float]]];
                        mask := [[[false; true]; [false; false]]] |} |}.

Definition example_grid : Dataset :=
  scenario_grid 51.5 51.5 51.25 51.25 10.5 10.75 10.5 10.75 (-9999).

(** The same file without its [northing] dimension. *)
Definition grid_without_northing : Dataset :=
  {| dimensions := {[ "time" := 1; "easting" := 2 ]};
     var_time := var_time example_grid;
     var_lat := var_lat example_grid;
     var_lon := var_lon example_grid;
     var_SMI := var_SMI example_grid |}.

(** A directory with that malformed file and an output of an earlier run. *)
Definition example_files : gmap string file :=
  {[ "smi.nc" := NetCDFFile grid_without_northing;
     "smi.hyper" := HyperFile new_database ]}.

(** ** More sample inputs and record fields *)

(** A directory holding the sample grid alone. *)
Definition sample_files : gmap string file :=
  {[ "smi.nc" := NetCDFFile example_grid ]}.

(** The sample grid without its [lat] variable. *)
Definition grid_without_lat : Dataset :=
  {| dimensions := dimensions example_grid;
     var_time := var_time example_grid;
     var_lat := None;
     var_lon := var_lon example_grid;
     var_SMI := var_SMI example_grid |}.


(** A grid of one row and two columns with the two time steps 100 and
    200; column 1 is masked at the first, column 0 at the second. *)
Definition two_step_grid : Dataset :=
  {| dimensions := {[ "time" := 2; "northing" := 1; "easting" := 2 ]};
     var_time := Some [100%Z; 200%Z];
     var_lat := Some {| ma_data := [[51.5%float; 51.5%float]];
                        mask := [[false; false]] |};
     var_lon := Some {| ma_data := [[10.5%float; 10.75%float]];
                        mask := [[false; false]] |};
     var_SMI := Some {| ma_data := [[[0.5%float; (-9999)%float]];
                                    [[(-9999)%float; 0.25%float]]];
                        mask := [[[false; true]]; [[true; false]]] |} |}.

(** The sample grid with no entry of [SMI] masked. *)
Definition unmasked_grid : Dataset :=
  {| dimensions := dimensions example_grid;
     var_time := var_time example_grid;
     var_lat := var_lat example_grid;
     var_lon := var_lon example_grid;
     var_SMI := Some {| ma_data := [[[1%float; 1.5%float]; [2%float; 3%float]]];
                        mask := [[[false; false]; [false; false]]] |} |}.

(** ** A stored field against the record's field *)

(** The integer a double stands for, when it stands for one. *)
Definition integer_of (f : float) : option Z :=
  match Prim2SF f with
  | S754_zero _ => Some 0%Z
  | S754_finite s m e =>
      if (0 <=? e)%Z then Some (cond_Zopp s (Z.pos m * 2 ^ e))
      else if (Z.pos m mod 2 ^ (- e) =? 0)%Z
           then Some (cond_Zopp s (Z.pos m / 2 ^ (- e)))
           else None
  | _ => None
  end.

(** The stored field is exactly the field of the record: the same string,
    the same float, or a double standing for the same integer. *)
Definition same_field (v : pyval) (s : sqlval) : bool :=
  match v, s with
  | PStr a, SqlText b => String.eqb a b
  | PFloat f, SqlDouble g => PrimFloat.Leibniz.eqb f g
  | PInt z, SqlDouble g =>
      match integer_of g with
      | Some z' => (z =? z')%Z
      | None => false
      end
  | _, _ => false
  end.

(** ** Counting *)

(** The number of masked entries in the first [n_steps] time steps of
    [SMI], as [SMI[:n_steps].mask.sum()] counts them. *)
Definition masked_count (nc : Dataset) (n_steps : nat) : nat :=
  match var_SMI nc with
  | Some smi =>
      length (filter (fun b : bool => b = true)
                (concat (concat (take n_steps (mask smi)))))
  | None => 0
  end.

(** The sum of [f] over the indices in [l]. *)
Definition sum_over (l : list nat) (f : nat -> nat) : nat := sum_list (f <$> l).

(** The mask bit at [(i, y, x)] of a rank-3 mask, [false] out of range. *)
Definition mask_bit (m : list (list (list bool))) (i y x : nat) : bool :=
  default false (s ← m !! i; r ← s !! y; r !! x).

(** ** Proof tools *)

(** Membership of a schema name in a union of singletons. *)
Ltac schema_membership :=
  simpl; rewrite ?elem_of_union, ?elem_of_singleton;
  intuition (auto; discriminate).

(** ** Facts about the rendering of integers *)

Lemma uint_digits_dashfree (d : Decimal.uint) :
  PyStr.dashfree (NilEmpty.string_of_uint d) = true.
Proof. induction d; simpl; auto. Qed.

Lemma str_dashfree (n : nat) : PyStr.dashfree (PyStr.str n) = true.
Proof. apply uint_digits_dashfree. Qed.

Lemma str_inj (m n : nat) : PyStr.str m = PyStr.str n -> m = n.
Proof.
  unfold PyStr.str. intros E.
  apply (f_equal NilEmpty.uint_of_string) in E.
  rewrite !NilEmpty.usu in E.
  injection E as E.
  apply (f_equal Nat.of_uint) in E.
  now rewrite !DecimalNat.Unsigned.of_to in E.
Qed.

(** Two strings split at their first ['-'] agree on both sides of it. *)
Lemma dash_split (s1 : string) :
  forall s2 t1 t2,
    PyStr.dashfree s1 = true -> PyStr.dashfree s2 = true ->
    s1 ++ "-" ++ t1 = s2 ++ "-" ++ t2 -> s1 = s2 /\ t1 = t2.
Proof.
  induction s1 as [|c s1 IH]; intros [|c2 s2] t1 t2 D1 D2 E; simpl in *.
  - injection E as E. auto.
  - injection E as Ec E. subst c2. discriminate D2.
  - injection E as Ec E. subst c. discriminate D1.
  - injection E as Ec E. subst c2.
    apply andb_prop in D1 as [_ D1]. apply andb_prop in D2 as [_ D2].
    destruct (IH s2 t1 t2 D1 D2 E) as [-> ->]. auto.
Qed.

Lemma combine_inj (y1 x1 y2 x2 : nat) :
  combine y1 x1 = combine y2 x2 -> y1 = y2 /\ x1 = x2.
Proof.
  unfold combine. intros E.
  apply dash_split in E as [Ey Ex]; auto using str_dashfree.
  split; apply str_inj; assumption.
Qed.

(** C5: the cell identifier [combine y x], the string "<y>-<x>", is
    injective: two distinct cells (indices are naturals, as [range]
    yields them) have different identifier strings. *)
Theorem combine_injective_on_grid (y1 x1 y2 x2 : nat) :
  (y1, x1) <> (y2, x2) -> combine y1 x1 <> combine y2 x2.
Proof.
  intros Hne E. apply combine_inj in E as [-> ->]. now apply Hne.
Qed.

Lemma combine_injective_on_grid_witness :
  combine 1 12 <> combine 11 2 /\ combine 1 12 = "1-12" /\ combine 11 2 = "11-2".
Proof.
  split; [apply (combine_injective_on_grid 1 12 11 2); discriminate
         | split; reflexivity].
Defined.

(** ** The loops, as what they append *)

Lemma extend_nil (st : lists) : extend st [] [] = st.
Proof. destruct st; unfold extend; simpl; by rewrite !app_nil_r. Qed.

Lemma extend_extend (st : lists) (d g d' g' : list row) :
  extend (extend st d g) d' g' = extend st (d ++ d') (g ++ g').
Proof. unfold extend; simpl; by rewrite !app_assoc. Qed.

Lemma elem_of_range (v hi : nat) : v ∈ range 0 hi <-> v < hi.
Proof. unfold range. rewrite elem_of_seq. lia. Qed.

(** A loop whose body, when it succeeds, appends [fd v] and [fg v], and
    succeeds exactly when [R v], appends the concatenation over the range
    and succeeds exactly when [R] holds all over it. *)
Lemma for_each_extend (l : list nat) (body : nat -> lists -> result lists)
    (R : nat -> Prop) (fd fg : nat -> list row) :
  (forall v st st', v ∈ l ->
     body v st = Ok st' <-> R v /\ st' = extend st (fd v) (fg v)) ->
  forall st st',
    for_each l body st = Ok st' <->
    (forall v, v ∈ l -> R v) /\ st' = extend st (l ≫= fd) (l ≫= fg).
Proof.
  induction l as [|v l IH]; intros Hbody st st'; simpl.
  - rewrite extend_nil. split.
    + intros [= <-]. split; [intros v Hv; by apply elem_of_nil in Hv | done].
    + by intros [_ ->].
  - assert (Hl : forall v0 s s', v0 ∈ l ->
              body v0 s = Ok s' <-> R v0 /\ s' = extend s (fd v0) (fg v0)).
    { intros v0 s s' Hv0. apply Hbody. by right. }
    specialize (IH Hl).
    pose proof (Hbody v st) as Hv.
    destruct (body v st) as [st1|e] eqn:E; simpl.
    + destruct (proj1 (Hv st1 ltac:(left)) eq_refl) as [HR ->].
      rewrite IH, extend_extend. split.
      * intros [Hall ->]. split; [|done].
        intros v0 [->|Hv0]%elem_of_cons; auto.
      * intros [Hall ->]. split; [|done].
        intros v0 Hv0. apply Hall. by right.
    + split; [discriminate|].
      intros [Hall ->].
      assert (HR : R v) by (apply Hall; left).
      specialize (Hv (extend st (fd v) (fg v)) ltac:(left)).
      destruct Hv as [_ Hv]. discriminate Hv. by split.
Qed.

Lemma cell_body_extend (nc : Dataset) (i x y : nat) (st st' : lists) :
  cell_body nc i x y st = Ok st' <->
  readable nc i x y /\ st' = extend st (data_rows nc i x y) (geom_rows nc i x y).
Proof.
  unfold cell_body, readable, data_rows, geom_rows, extend,
    data_geom_append, data_append.
  destruct (decide (i = 0)) as [Hi|Hi];
    destruct (lat_at nc y x) as [la|]; destruct (lon_at nc y x) as [lo|];
    destruct (mask_at nc i y x) as [[|]|];
    destruct (time_at nc i) as [tv|]; destruct (SMI_at nc i y x) as [v|];
    simpl; rewrite ?app_nil_r; destruct st as [d g]; simpl;
    (split; [intros [= <-] | intros [[Hg (m & [= <-] & Hm)] ->]]);
    try reflexivity;
    try (exfalso; destruct (Hg Hi) as [[? ?] [? ?]]; discriminate);
    try (exfalso; destruct (Hm eq_refl) as [[? ?] [? ?]]; discriminate);
    (split; [|reflexivity]);
    (split; [intros Hi0; first [exfalso; apply Hi; exact Hi0 | eauto]
            | eexists; split; [reflexivity|]; intros; try discriminate; eauto]).
Qed.

Lemma column_loop_extend (nc : Dataset) (y_size i x : nat) (st st' : lists) :
  column_loop nc y_size i x st = Ok st' <->
  (forall y, y < y_size -> readable nc i x y)
  /\ st' = extend st (range 0 y_size ≫= data_rows nc i x)
                     (range 0 y_size ≫= geom_rows nc i x).
Proof.
  unfold column_loop.
  rewrite (for_each_extend _ _ (readable nc i x) (data_rows nc i x) (geom_rows nc i x)).
  - by setoid_rewrite elem_of_range.
  - intros y s s' _. apply cell_body_extend.
Qed.

Lemma time_step_extend (nc : Dataset) (y_size x_size i : nat) (st st' : lists) :
  time_step nc y_size x_size i st = Ok st' <->
  (forall x y, x < x_size -> y < y_size -> readable nc i x y)
  /\ st' = extend st
             (range 0 x_size ≫= fun x => range 0 y_size ≫= data_rows nc i x)
             (range 0 x_size ≫= fun x => range 0 y_size ≫= geom_rows nc i x).
Proof.
  unfold time_step.
  rewrite (for_each_extend _ _ (fun x => forall y, y < y_size -> readable nc i x y)
             (fun x => range 0 y_size ≫= data_rows nc i x)
             (fun x => range 0 y_size ≫= geom_rows nc i x)).
  - setoid_rewrite elem_of_range. split; intros [H ->]; split; auto.
  - intros x s s' _. apply column_loop_extend.
Qed.

Lemma extraction_loop_extend (nc : Dataset) (y_size x_size n_steps : nat)
    (st st' : lists) :
  extraction_loop nc y_size x_size n_steps st = Ok st' <->
  (forall i x y, i < n_steps -> x < x_size -> y < y_size -> readable nc i x y)
  /\ st' = extend st (measurement_rows nc y_size x_size n_steps)
                     (geometry_rows nc y_size x_size n_steps).
Proof.
  unfold extraction_loop, measurement_rows, geometry_rows.
  rewrite (for_each_extend _ _
             (fun i => forall x y, x < x_size -> y < y_size -> readable nc i x y)
             (fun i => range 0 x_size ≫= fun x => range 0 y_size ≫= data_rows nc i x)
             (fun i => range 0 x_size ≫= fun x => range 0 y_size ≫= geom_rows nc i x)).
  - setoid_rewrite elem_of_range. split; intros [H ->]; split; auto.
  - intros i s s' _. apply time_step_extend.
Qed.

(** ** Reading a well-formed file *)

Lemma has_shape2_lookup {A : Type} (rows cols : nat) (a : list (list A)) (y x : nat) :
  has_shape2 rows cols a = true -> y < rows -> x < cols ->
  exists r v, a !! y = Some r /\ r !! x = Some v.
Proof.
  unfold has_shape2. intros [Hl Hr]%andb_prop Hy Hx.
  apply Nat.eqb_eq in Hl.
  destruct (lookup_lt_is_Some_2 a y) as [r Hry]; [lia|].
  rewrite forallb_forall in Hr.
  assert (Hlen : length r = cols).
  { apply Nat.eqb_eq, Hr, list_elem_of_In. eapply list_elem_of_lookup_2, Hry. }
  destruct (lookup_lt_is_Some_2 r x) as [v Hv]; [lia|].
  eauto.
Qed.

Lemma has_shape3_lookup {A : Type} (n rows cols : nat) (a : list (list (list A)))
    (i : nat) :
  has_shape3 n rows cols a = true -> i < n ->
  exists s, a !! i = Some s /\ has_shape2 rows cols s = true.
Proof.
  unfold has_shape3. intros [Hl Hs]%andb_prop Hi.
  apply Nat.eqb_eq in Hl.
  destruct (lookup_lt_is_Some_2 a i) as [s Hsi]; [lia|].
  rewrite forallb_forall in Hs.
  exists s. split; [done|].
  apply Hs, list_elem_of_In. eapply list_elem_of_lookup_2, Hsi.
Qed.

Lemma ma_getitem_lookup {D M : Type} (a : masked (list D) (list M)) (i : nat)
    (d : D) (m : M) :
  ma_data a !! i = Some d -> mask a !! i = Some m ->
  ma_getitem a i = Ok {| ma_data := d; mask := m |}.
Proof. intros Hd Hm. unfold ma_getitem, getitem. by rewrite Hd, Hm. Qed.

Lemma ma_read_in_shape (rows cols : nat)
    (a : masked (list (list float)) (list (list bool))) (y x : nat) :
  has_shape2 rows cols (ma_data a) = true ->
  has_shape2 rows cols (mask a) = true ->
  y < rows -> x < cols ->
  exists v,
    (r ← ma_getitem a y; e ← ma_getitem r x; mret (ma_scalar e)) = Ok v.
Proof.
  intros Hd Hm Hy Hx.
  destruct (has_shape2_lookup _ _ _ y x Hd Hy Hx) as (rd & vd & Erd & Evd).
  destruct (has_shape2_lookup _ _ _ y x Hm Hy Hx) as (rm & vm & Erm & Evm).
  unfold ma_getitem, getitem. rewrite Erd, Erm. simpl. rewrite Evd, Evm. simpl.
  eexists. reflexivity.
Qed.

(** The parts of a well-formed file. *)
Lemma well_formed_parts (nc : Dataset) (y_size x_size : nat) :
  well_formed nc = true ->
  dimension_size nc "northing" = Ok y_size ->
  dimension_size nc "easting" = Ok x_size ->
  exists t la lo smi,
    var_time nc = Some t /\ var_lat nc = Some la /\ var_lon nc = Some lo
    /\ var_SMI nc = Some smi
    /\ has_shape2 y_size x_size (ma_data la) = true
    /\ has_shape2 y_size x_size (mask la) = true
    /\ has_shape2 y_size x_size (ma_data lo) = true
    /\ has_shape2 y_size x_size (mask lo) = true
    /\ has_shape3 (length t) y_size x_size (ma_data smi) = true
    /\ has_shape3 (length t) y_size x_size (mask smi) = true.
Proof.
  unfold well_formed, dimension_size.
  destruct (dimensions nc !! "northing") as [rows|]; [|discriminate].
  destruct (dimensions nc !! "easting") as [cols|]; [|discriminate].
  destruct (var_time nc) as [t|]; [|discriminate].
  destruct (var_lat nc) as [la|]; [|discriminate].
  destruct (var_lon nc) as [lo|]; [|discriminate].
  destruct (var_SMI nc) as [smi|]; [|discriminate].
  intros [[[[[H1 H2]%andb_prop H3]%andb_prop H4]%andb_prop H5]%andb_prop H6]%andb_prop
         [= ->] [= ->].
  exists t, la, lo, smi. repeat (split; [done|]). done.
Qed.

(** On a well-formed file every read of [lat], [lon], [time] and [SMI] at
    an index inside the declared dimensions succeeds; the read of the mask
    succeeds when the time step has a masked entry and raises [IndexError]
    when it has none. *)
Lemma well_formed_reads (nc : Dataset) (y_size x_size : nat) :
  well_formed nc = true ->
  dimension_size nc "northing" = Ok y_size ->
  dimension_size nc "easting" = Ok x_size ->
  forall i x y, x < x_size -> y < y_size ->
    (exists la, lat_at nc y x = Ok la)
    /\ (exists lo, lon_at nc y x = Ok lo)
    /\ (i < n_times nc ->
        (exists tv, time_at nc i = Ok tv)
        /\ (exists v, SMI_at nc i y x = Ok v)
        /\ (step_has_masked_cell nc i = true -> exists m, mask_at nc i y x = Ok m)
        /\ (step_has_masked_cell nc i = false -> mask_at nc i y x = Raise IndexError)).
Proof.
  intros Hwf Hn He i x y Hx Hy.
  destruct (well_formed_parts nc y_size x_size Hwf Hn He)
    as (t & la & lo & smi & Et & Ela & Elo & Esmi & H1 & H2 & H3 & H4 & H5 & H6).
  unfold lat_at, lon_at, time_at, SMI_at, mask_at, n_times, step_has_masked_cell.
  rewrite Et, Ela, Elo, Esmi. simpl.
  split; [by apply (ma_read_in_shape y_size x_size)|].
  split; [by apply (ma_read_in_shape y_size x_size)|].
  intros Hi.
  destruct (has_shape3_lookup _ _ _ _ i H5 Hi) as (sd & Ed & Hsd).
  destruct (has_shape3_lookup _ _ _ _ i H6 Hi) as (sm & Em & Hsm).
  destruct (lookup_lt_is_Some_2 t i Hi) as [tv Etv].
  rewrite (ma_getitem_lookup smi i sd sm Ed Em), Em.
  unfold getitem at 1. rewrite Etv. simpl.
  split; [eexists; reflexivity|].
  split; [by apply (ma_read_in_shape y_size x_size {| ma_data := sd; mask := sm |})|].
  unfold mask_attribute, getitem. simpl.
  destruct (has_shape2_lookup _ _ _ y x Hsm Hy Hx) as (rm & vm & Erm & Evm).
  split; intros ->; [|done].
  rewrite Erm. simpl. rewrite Evm. eauto.
Qed.

Lemma well_formed_readable (nc : Dataset) (y_size x_size : nat) :
  well_formed nc = true ->
  dimension_size nc "northing" = Ok y_size ->
  dimension_size nc "easting" = Ok x_size ->
  forall i x y, i < n_times nc -> step_has_masked_cell nc i = true ->
    x < x_size -> y < y_size -> readable nc i x y.
Proof.
  intros Hwf Hn He i x y Hi Hs Hx Hy.
  destruct (well_formed_reads nc y_size x_size Hwf Hn He i x y Hx Hy)
    as (Hla & Hlo & Hrest).
  destruct (Hrest Hi) as (Htv & Hv & Hm & _).
  destruct (Hm Hs) as [m Hm'].
  split; [auto|]. exists m. auto.
Qed.

(** What [SMI[i][y][x]] yields is [masked] exactly where the mask is set. *)
Lemma SMI_at_mask_at (nc : Dataset) (i y x : nat) (v : pyval) (m : bool) :
  SMI_at nc i y x = Ok v -> mask_at nc i y x = Ok m ->
  (v = PMasked <-> m = true).
Proof.
  unfold SMI_at, mask_at, mask_attribute, ma_getitem, ma_scalar, getitem.
  destruct (var_SMI nc) as [[smi_d smi_m]|]; simpl; [|discriminate].
  destruct (smi_d !! i) as [sd|]; simpl; [|discriminate].
  destruct (smi_m !! i) as [sm|]; simpl; [|discriminate].
  destruct (any_masked sm); [|discriminate].
  destruct (sd !! y) as [rd|]; simpl; [|discriminate].
  destruct (sm !! y) as [rm|]; simpl; [|discriminate].
  destruct (rd !! x) as [vd|]; simpl; [|discriminate].
  destruct (rm !! x) as [[|]|]; simpl; [| |discriminate];
    intros [= <-] [= <-]; split; congruence.
Qed.

Lemma steps_have_masked_cells_step (nc : Dataset) (n_steps i : nat) :
  steps_have_masked_cells nc n_steps = true -> i < n_steps ->
  step_has_masked_cell nc i = true.
Proof.
  unfold steps_have_masked_cells. rewrite forallb_forall. intros H Hi.
  apply H, list_elem_of_In, elem_of_range, Hi.
Qed.

(** The loop on a well-formed file, over time steps the file holds, each
    with a masked entry. *)
Lemma extract_well_formed (nc : Dataset) (y_size x_size n_steps : nat) :
  well_formed nc = true ->
  dimension_size nc "northing" = Ok y_size ->
  dimension_size nc "easting" = Ok x_size ->
  n_steps <= n_times nc ->
  steps_have_masked_cells nc n_steps = true ->
  extract nc n_steps =
    Ok {| data := measurement_rows nc y_size x_size n_steps;
          data_geom := geometry_rows nc y_size x_size n_steps |}.
Proof.
  intros Hwf Hn He Hle Hs. unfold extract. rewrite Hn, He. simpl.
  apply extraction_loop_extend. split; [|done].
  intros i x y Hi Hx Hy.
  apply (well_formed_readable nc y_size x_size); auto; [lia|].
  by apply (steps_have_masked_cells_step nc n_steps).
Qed.

(** ** Membership in the two lists *)

Lemma bind_all_nil {A B : Type} (f : A -> list B) (l : list A) :
  (forall a, a ∈ l -> f a = []) -> l ≫= f = [].
Proof.
  induction l as [|a l IH]; intros H; [done|].
  rewrite bind_cons, (H a), IH; [done| |by left].
  intros b Hb. apply H. by right.
Qed.

Lemma elem_of_data_rows (nc : Dataset) (i x y : nat) (r : row) :
  r ∈ data_rows nc i x y <->
  exists tv v, mask_at nc i y x = Ok false /\ time_at nc i = Ok tv
               /\ SMI_at nc i y x = Ok v /\ r = [PStr (combine y x); tv; v].
Proof.
  unfold data_rows.
  destruct (mask_at nc i y x) as [[|]|]; destruct (time_at nc i) as [tv|];
    destruct (SMI_at nc i y x) as [v|];
    rewrite ?list_elem_of_singleton, ?elem_of_nil;
    (split; [intros H; try contradiction | intros (tv' & v' & H1 & H2 & H3 & H4)]);
    try discriminate.
  - eauto 6.
  - congruence.
Qed.

Lemma elem_of_geom_rows (nc : Dataset) (i x y : nat) (r : row) :
  r ∈ geom_rows nc i x y <->
  i = 0 /\ exists la lo, lat_at nc y x = Ok la /\ lon_at nc y x = Ok lo
                         /\ r = [PStr (combine y x); la; lo].
Proof.
  unfold geom_rows.
  destruct (decide (i = 0)) as [Hi|Hi]; destruct (lat_at nc y x) as [la|];
    destruct (lon_at nc y x) as [lo|];
    rewrite ?list_elem_of_singleton, ?elem_of_nil;
    (split; [intros H; try contradiction | intros (Hi' & la' & lo' & H1 & H2 & H3)]);
    try discriminate; try contradiction.
  - eauto 6.
  - congruence.
Qed.

Lemma elem_of_measurement_rows (nc : Dataset) (y_size x_size n_steps : nat) (r : row) :
  r ∈ measurement_rows nc y_size x_size n_steps <->
  exists i x y, i < n_steps /\ x < x_size /\ y < y_size /\ r ∈ data_rows nc i x y.
Proof.
  unfold measurement_rows. split.
  - intros (i & (x & (y & Hr & Hy)%list_elem_of_bind & Hx)%list_elem_of_bind & Hi)%list_elem_of_bind.
    apply elem_of_range in Hi, Hx, Hy. eauto 8.
  - intros (i & x & y & Hi & Hx & Hy & Hr).
    apply list_elem_of_bind. exists i. split; [|by apply elem_of_range].
    apply list_elem_of_bind. exists x. split; [|by apply elem_of_range].
    apply list_elem_of_bind. exists y. split; [done|by apply elem_of_range].
Qed.

Lemma elem_of_geometry_rows (nc : Dataset) (y_size x_size n_steps : nat) (r : row) :
  r ∈ geometry_rows nc y_size x_size n_steps <->
  exists i x y, i < n_steps /\ x < x_size /\ y < y_size /\ r ∈ geom_rows nc i x y.
Proof.
  unfold geometry_rows. split.
  - intros (i & (x & (y & Hr & Hy)%list_elem_of_bind & Hx)%list_elem_of_bind & Hi)%list_elem_of_bind.
    apply elem_of_range in Hi, Hx, Hy. eauto 8.
  - intros (i & x & y & Hi & Hx & Hy & Hr).
    apply list_elem_of_bind. exists i. split; [|by apply elem_of_range].
    apply list_elem_of_bind. exists x. split; [|by apply elem_of_range].
    apply list_elem_of_bind. exists y. split; [done|by apply elem_of_range].
Qed.

(** ** The measurement records *)

(** X14: on a well-formed file, over time steps the file holds and each
    of which has a masked entry, the loop ends without an exception, and
    for every selected time step [t] and every cell [(y, x)] of the grid
    the record [[combine y x, time[t], SMI[t][y][x]]] is in [data] if and
    only if the mask at [(t, y, x)] is false. The body of the loop leaves
    [data] as it was at a masked cell, and a time step whose cells are all
    masked runs to its end and leaves [data] as it was. *)
Theorem measurement_iff_not_masked (nc : Dataset) (rows cols n_steps : nat) :
  well_formed nc = true ->
  dimension_size nc "northing" = Ok rows ->
  dimension_size nc "easting" = Ok cols ->
  n_steps <= n_times nc ->
  steps_have_masked_cells nc n_steps = true ->
  exists st, extract nc n_steps = Ok st /\
    forall t, t < n_steps ->
      (forall y x, y < rows -> x < cols ->
         exists tv v m,
           time_at nc t = Ok tv /\ SMI_at nc t y x = Ok v /\ mask_at nc t y x = Ok m
           /\ ([PStr (combine y x); tv; v] ∈ data st <-> m = false)
           /\ (m = true ->
               forall s, exists s', cell_body nc t x y s = Ok s' /\ data s' = data s))
      /\ ((forall y x, y < rows -> x < cols -> mask_at nc t y x = Ok true) ->
          forall s, exists s', time_step nc rows cols t s = Ok s' /\ data s' = data s).
Proof.
  intros Hwf Hn He Hle Hs.
  eexists. split; [by apply extract_well_formed|]. simpl.
  intros t Ht.
  pose proof (steps_have_masked_cells_step nc n_steps t Hs Ht) as Hst.
  assert (Hread : forall x y, x < cols -> y < rows -> readable nc t x y).
  { intros x y Hx Hy. apply (well_formed_readable nc rows cols); auto; lia. }
  split.
  - intros y x Hy Hx.
    destruct (well_formed_reads nc rows cols Hwf Hn He t x y Hx Hy) as (_ & _ & Hr).
    destruct Hr as ([tv Htv] & [v Hv] & Hm & _); [lia|].
    destruct (Hm Hst) as [m Hm'']. clear Hm. rename Hm'' into Hm.
    exists tv, v, m. repeat (split; [done|]). split.
    + rewrite elem_of_measurement_rows. split.
      * intros (i' & x' & y' & _ & _ & _ & Hr).
        apply elem_of_data_rows in Hr as (tv' & v' & Hm' & _ & Hv' & [= Hid <- <-]).
        apply combine_inj in Hid as [<- <-].
        destruct m; [|done].
        assert (v = PMasked) as -> by (by apply (SMI_at_mask_at nc t y x _ true)).
        symmetry. by apply (SMI_at_mask_at nc i' y x PMasked false).
      * intros ->. exists t, x, y. repeat (split; [done|]).
        apply elem_of_data_rows. eauto 6.
    + intros -> s. eexists. split.
      * apply cell_body_extend. split; [by apply Hread|done].
      * unfold data_rows. rewrite Hm. simpl. by rewrite app_nil_r.
  - intros Hmask s. eexists. split.
    + apply time_step_extend. split; [exact Hread|done].
    + simpl. rewrite bind_all_nil; [by rewrite app_nil_r|].
      intros x Hx%elem_of_range. apply bind_all_nil.
      intros y Hy%elem_of_range. unfold data_rows. by rewrite Hmask.
Qed.

(** ** Ids of the geometry records *)

Lemma geom_rows_NoDup (nc : Dataset) (i x y : nat) : NoDup (geom_rows nc i x y).
Proof.
  unfold geom_rows.
  destruct (decide (i = 0)); destruct (lat_at nc y x); destruct (lon_at nc y x);
    first [apply NoDup_singleton | apply NoDup_nil_2].
Qed.

Lemma geometry_rows_NoDup (nc : Dataset) (y_size x_size n_steps : nat) :
  NoDup (geometry_rows nc y_size x_size n_steps).
Proof.
  unfold geometry_rows, range.
  apply NoDup_bind; [| |apply NoDup_seq].
  - intros i1 i2 r _ _.
    intros (x1 & (y1 & (-> & _)%elem_of_geom_rows & _)%list_elem_of_bind & _)%list_elem_of_bind.
    intros (x2 & (y2 & (-> & _)%elem_of_geom_rows & _)%list_elem_of_bind & _)%list_elem_of_bind.
    done.
  - intros i _. apply NoDup_bind; [| |apply NoDup_seq].
    + intros x1 x2 r _ _.
      intros (y1 & (_ & la1 & lo1 & _ & _ & ->)%elem_of_geom_rows & _)%list_elem_of_bind.
      intros (y2 & (_ & la2 & lo2 & _ & _ & [= E _ _])%elem_of_geom_rows & _)%list_elem_of_bind.
      by apply combine_inj in E as [_ ->].
    + intros x _. apply NoDup_bind; [| |apply NoDup_seq].
      * intros y1 y2 r _ _.
        intros (_ & la1 & lo1 & _ & _ & ->)%elem_of_geom_rows.
        intros (_ & la2 & lo2 & _ & _ & [= E _ _])%elem_of_geom_rows.
        by apply combine_inj in E as [-> _].
      * intros y _. apply geom_rows_NoDup.
Qed.

(** No two geometry records of a run share an id. *)
Lemma geometry_ids_NoDup (nc : Dataset) (y_size x_size n_steps : nat) :
  NoDup (record_id <$> geometry_rows nc y_size x_size n_steps).
Proof.
  apply NoDup_fmap_2_strong; [|apply geometry_rows_NoDup].
  intros r1 r2.
  intros (i1 & x1 & y1 & _ & _ & _ & H1)%elem_of_geometry_rows.
  intros (i2 & x2 & y2 & _ & _ & _ & H2)%elem_of_geometry_rows.
  apply elem_of_geom_rows in H1 as (_ & la1 & lo1 & Hla1 & Hlo1 & ->).
  apply elem_of_geom_rows in H2 as (_ & la2 & lo2 & Hla2 & Hlo2 & ->).
  simpl. intros [= E]. apply combine_inj in E as [-> ->]. congruence.
Qed.

(** ** The geometry records *)

Lemma length_bind_const {A B : Type} (f : A -> list B) (l : list A) (k : nat) :
  (forall a, a ∈ l -> length (f a) = k) -> length (l ≫= f) = length l * k.
Proof.
  induction l as [|a l IH]; intros H; [done|].
  rewrite bind_cons, length_app, (H a), IH; [simpl; lia| |by left].
  intros b Hb. apply H. by right.
Qed.

Lemma geom_rows_later (nc : Dataset) (i x y : nat) : i <> 0 -> geom_rows nc i x y = [].
Proof. unfold geom_rows. by destruct (decide (i = 0)). Qed.

(** Only time step 0 adds to [data_geom]. *)
Lemma geometry_rows_first (nc : Dataset) (y_size x_size n : nat) :
  geometry_rows nc y_size x_size (S n) =
  (x ← range 0 x_size; y ← range 0 y_size; geom_rows nc 0 x y).
Proof.
  unfold geometry_rows.
  change (range 0 (S n)) with (0 :: seq 1 n).
  rewrite bind_cons, (bind_all_nil _ (seq 1 n)); [by rewrite app_nil_r|].
  intros i Hi%elem_of_seq. apply bind_all_nil. intros x _.
  apply bind_all_nil. intros y _. apply geom_rows_later. lia.
Qed.

Lemma time_step_later (nc : Dataset) (y_size x_size i : nat) (s s' : lists) :
  i <> 0 -> time_step nc y_size x_size i s = Ok s' -> data_geom s' = data_geom s.
Proof.
  intros Hi [_ ->]%time_step_extend. simpl.
  rewrite bind_all_nil; [by rewrite app_nil_r|].
  intros x _. apply bind_all_nil. intros y _. by apply geom_rows_later.
Qed.

(** X15: on a well-formed file and for one or more selected time steps,
    all of which the file holds and each of which has a masked entry, the
    loop ends without an exception with [rows * cols] geometry records, no
    two of one id; every cell [(y, x)] of the grid, masked or not, has its
    record [[combine y x, lat[y][x], lon[y][x]]] among them; they are the
    ones time step 0 appends, a later time step leaves [data_geom] as it
    was, and the list is the same as when a single time step is
    selected. *)
Theorem geometry_one_per_cell (nc : Dataset) (rows cols n_steps : nat) :
  well_formed nc = true ->
  dimension_size nc "northing" = Ok rows ->
  dimension_size nc "easting" = Ok cols ->
  1 <= n_steps ->
  n_steps <= n_times nc ->
  steps_have_masked_cells nc n_steps = true ->
  exists st, extract nc n_steps = Ok st
    /\ length (data_geom st) = rows * cols
    /\ NoDup (record_id <$> data_geom st)
    /\ (forall y x, y < rows -> x < cols ->
          exists la lo, lat_at nc y x = Ok la /\ lon_at nc y x = Ok lo
                        /\ [PStr (combine y x); la; lo] ∈ data_geom st)
    /\ (exists st0, time_step nc rows cols 0 empty_lists = Ok st0
                    /\ data_geom st = data_geom st0)
    /\ (forall i s s', i <> 0 -> time_step nc rows cols i s = Ok s' ->
          data_geom s' = data_geom s)
    /\ (exists st1, extract nc 1 = Ok st1 /\ data_geom st = data_geom st1).
Proof.
  intros Hwf Hn He H1 Hle Hs.
  pose proof (steps_have_masked_cells_step nc n_steps 0 Hs ltac:(lia)) as Hs0.
  eexists. split; [by apply extract_well_formed|]. simpl.
  split; [|split; [apply geometry_ids_NoDup|]];
    (destruct n_steps as [|n]; [lia|]); rewrite geometry_rows_first;
    [|split; [|split; [|split]]].
  - rewrite (length_bind_const _ _ rows).
    + unfold range. rewrite length_seq. lia.
    + intros x Hx%elem_of_range. rewrite (length_bind_const _ _ 1).
      * unfold range. rewrite length_seq. lia.
      * intros y Hy%elem_of_range.
        destruct (well_formed_reads nc rows cols Hwf Hn He 0 x y Hx Hy)
          as ([la Hla] & [lo Hlo] & _).
        unfold geom_rows. by rewrite Hla, Hlo.
  - intros y x Hy Hx.
    destruct (well_formed_reads nc rows cols Hwf Hn He 0 x y Hx Hy)
      as ([la Hla] & [lo Hlo] & _).
    exists la, lo. repeat (split; [done|]).
    apply list_elem_of_bind. exists x. split; [|by apply elem_of_range].
    apply list_elem_of_bind. exists y. split; [|by apply elem_of_range].
    apply elem_of_geom_rows. eauto 6.
  - eexists. split.
    + apply time_step_extend. split; [|reflexivity].
      intros x y Hx Hy. apply (well_formed_readable nc rows cols); auto; lia.
    + reflexivity.
  - intros i s s'. apply time_step_later.
  - eexists. split.
    + apply (extract_well_formed nc rows cols 1); auto; [lia|].
      unfold steps_have_masked_cells. simpl. by rewrite Hs0.
    + simpl. by rewrite geometry_rows_first.
Qed.

(** ** Every measurement has its geometry *)

(** In a list without two records of one id, the records of the id of
    [g] are [g] alone. *)
Lemma filter_record_id_unique (l : list row) (g : row) (id : string) :
  NoDup (record_id <$> l) -> g ∈ l -> record_id g = Some id ->
  filter (fun g' => record_id g' = Some id) l = [g].
Proof.
  induction l as [|a l IH]; intros Hnd Hg Hid; [by apply elem_of_nil in Hg|].
  rewrite fmap_cons in Hnd. apply NoDup_cons in Hnd as [Ha Hnd].
  apply elem_of_cons in Hg as [<-|Hg].
  - rewrite filter_cons_True by done. f_equal.
    destruct (filter (fun g' => record_id g' = Some id) l) as [|b k] eqn:E; [done|].
    assert (Hb : b ∈ filter (fun g' => record_id g' = Some id) l)
      by (rewrite E; left).
    apply list_elem_of_filter in Hb as [Hb Hbl].
    exfalso. apply Ha. rewrite Hid, <- Hb. by apply list_elem_of_fmap_2.
  - rewrite filter_cons_False; [by apply IH|].
    intros Ha'. apply Ha. rewrite Ha', <- Hid. by apply list_elem_of_fmap_2.
Qed.

(** C4: in every run of the loop that ends without an exception, each
    record of [data] has an id, and exactly one record of [data_geom] has
    that id. *)
Theorem referential_completeness (nc : Dataset) (n_steps : nat) (st : lists) :
  extract nc n_steps = Ok st ->
  forall r, r ∈ data st ->
    exists id g, record_id r = Some id
      /\ filter (fun g' => record_id g' = Some id) (data_geom st) = [g].
Proof.
  unfold extract, dimension_size.
  destruct (dimensions nc !! "northing") as [y_size|]; [|discriminate].
  destruct (dimensions nc !! "easting") as [x_size|]; [|discriminate].
  simpl. intros [Hread ->]%extraction_loop_extend r. simpl.
  intros (i & x & y & Hi & Hx & Hy & Hr)%elem_of_measurement_rows.
  apply elem_of_data_rows in Hr as (tv & v & _ & _ & _ & ->).
  assert (H0 : 0 < n_steps) by lia.
  destruct (Hread 0 x y H0 Hx Hy) as [Hgeom _].
  destruct (Hgeom eq_refl) as [[la Hla] [lo Hlo]].
  exists (combine y x), [PStr (combine y x); la; lo]. split; [done|].
  apply filter_record_id_unique; [apply geometry_ids_NoDup| |done].
  apply elem_of_geometry_rows. exists 0, x, y. repeat (split; [done|]).
  apply elem_of_geom_rows. eauto 6.
Qed.

(** ** An empty selection of time steps *)

(** C3, as amended: when the range of selected time steps is empty the
    loop body never runs, and both lists are empty at the end: no geometry
    record and no measurement record. *)
Theorem empty_selection_empty_lists (nc : Dataset) (rows cols : nat) :
  dimension_size nc "northing" = Ok rows ->
  dimension_size nc "easting" = Ok cols ->
  exists st, extract nc 0 = Ok st /\ data_geom st = [] /\ data st = [].
Proof.
  intros Hn He. exists empty_lists. unfold extract. by rewrite Hn, He.
Qed.

Lemma empty_selection_empty_lists_witness :
  exists st, extract example_grid 0 = Ok st /\ data_geom st = [] /\ data st = [].
Proof. apply (empty_selection_empty_lists example_grid 2 2); reflexivity. Defined.

(** C3, as stated, fails on the 2 by 2 grid: with no time step selected
    the geometry list does not have [2 * 2] records. *)
Lemma empty_selection_geometry_counterexample :
  dimension_size example_grid "northing" = Ok 2
  /\ dimension_size example_grid "easting" = Ok 2
  /\ ~ (exists st, extract example_grid 0 = Ok st
                   /\ length (data_geom st) = 2 * 2 /\ data st = []).
Proof.
  split; [reflexivity|]. split; [reflexivity|].
  intros (st & H & Hlen & _).
  vm_compute in H. injection H as <-. discriminate Hlen.
Qed.

(** ** The loop on the sample grid *)

Lemma measurement_iff_not_masked_witness :
  exists st, extract example_grid 1 = Ok st /\
    forall t, t < 1 ->
      (forall y x, y < 2 -> x < 2 ->
         exists tv v m,
           time_at example_grid t = Ok tv /\ SMI_at example_grid t y x = Ok v
           /\ mask_at example_grid t y x = Ok m
           /\ ([PStr (combine y x); tv; v] ∈ data st <-> m = false)
           /\ (m = true ->
               forall s, exists s',
                 cell_body example_grid t x y s = Ok s' /\ data s' = data s))
      /\ ((forall y x, y < 2 -> x < 2 -> mask_at example_grid t y x = Ok true) ->
          forall s, exists s',
            time_step example_grid 2 2 t s = Ok s' /\ data s' = data s).
Proof.
  apply (measurement_iff_not_masked example_grid 2 2 1);
    [reflexivity | reflexivity | reflexivity | vm_compute; lia | reflexivity].
Defined.

Lemma geometry_one_per_cell_witness :
  exists st, extract example_grid 1 = Ok st
    /\ length (data_geom st) = 2 * 2
    /\ NoDup (record_id <$> data_geom st)
    /\ (forall y x, y < 2 -> x < 2 ->
          exists la lo, lat_at example_grid y x = Ok la
                        /\ lon_at example_grid y x = Ok lo
                        /\ [PStr (combine y x); la; lo] ∈ data_geom st)
    /\ (exists st0, time_step example_grid 2 2 0 empty_lists = Ok st0
                    /\ data_geom st = data_geom st0)
    /\ (forall i s s', i <> 0 -> time_step example_grid 2 2 i s = Ok s' ->
          data_geom s' = data_geom s)
    /\ (exists st1, extract example_grid 1 = Ok st1 /\ data_geom st = data_geom st1).
Proof.
  apply (geometry_one_per_cell example_grid 2 2 1);
    [reflexivity | reflexivity | reflexivity | lia | vm_compute; lia | reflexivity].
Defined.

Lemma referential_completeness_witness :
  exists st, extract example_grid 1 = Ok st
    /\ [PStr "1-1"; PInt 100; PFloat 3] ∈ data st
    /\ exists id g, record_id [PStr "1-1"; PInt 100; PFloat 3] = Some id
         /\ filter (fun g' => record_id g' = Some id) (data_geom st) = [g].
Proof.
  exists {| data := [[PStr "0-0"; PInt 100; PFloat 1];
                     [PStr "1-0"; PInt 100; PFloat 2];
                     [PStr "1-1"; PInt 100; PFloat 3]];
            data_geom := [[PStr "0-0"; PFloat 51.5; PFloat 10.5];
                          [PStr "1-0"; PFloat 51.25; PFloat 10.5];
                          [PStr "0-1"; PFloat 51.5; PFloat 10.75];
                          [PStr "1-1"; PFloat 51.25; PFloat 10.75]] |}.
  split; [vm_compute; reflexivity|].
  split; [simpl; by right; right; left|].
  apply (referential_completeness example_grid 1);
    [vm_compute; reflexivity | simpl; by right; right; left].
Defined.

(** C6: on the 2 by 2 grid with the single time step 100, any latitudes
    and longitudes, and [SMI = [[1.0, masked], [2.0, 3.0]]], one time step
    gives four geometry records, one per id "0-0", "0-1", "1-0", "1-1",
    each with the latitude and longitude of its cell, and three
    measurement records, those of "0-0", "1-0" and "1-1", each with time
    100 and the value of its cell; no record has the id "0-1" in [data]. *)
Theorem scenario_two_by_two
    (la00 la01 la10 la11 lo00 lo01 lo10 lo11 fill : float) :
  exists st,
    extract (scenario_grid la00 la01 la10 la11 lo00 lo01 lo10 lo11 fill) 1 = Ok st
    /\ data_geom st ≡ₚ [[PStr "0-0"; PFloat la00; PFloat lo00];
                        [PStr "0-1"; PFloat la01; PFloat lo01];
                        [PStr "1-0"; PFloat la10; PFloat lo10];
                        [PStr "1-1"; PFloat la11; PFloat lo11]]
    /\ data st ≡ₚ [[PStr "0-0"; PInt 100; PFloat 1];
                   [PStr "1-0"; PInt 100; PFloat 2];
                   [PStr "1-1"; PInt 100; PFloat 3]]
    /\ length (data_geom st) = 4
    /\ length (data st) = 3.
Proof.
  eexists. split; [vm_compute; reflexivity|]. simpl.
  split; [|split; [|split]]; try reflexivity.
  apply Permutation_skip, Permutation_swap.
Qed.

(** ** The output path *)

Lemma string_length_list (s : string) :
  length (list_ascii_of_string s) = String.length s.
Proof. induction s; simpl; auto. Qed.

Lemma string_length_append (s t : string) :
  String.length (s ++ t) = String.length s + String.length t.
Proof. induction s; simpl; auto. Qed.

Lemma substring_take (n : nat) (s : string) :
  substring 0 n s = string_of_list_ascii (take n (list_ascii_of_string s)).
Proof.
  revert n. induction s as [|c s IH]; intros [|n]; simpl; auto.
  by rewrite IH.
Qed.

(** [s[:-3]] keeps the first [len(s) - 3] characters, none when [s] has
    three or fewer. *)
Lemma slice_to_minus3 (s : string) :
  PyStr.slice_to s (-3) = substring 0 (String.length s - 3) s.
Proof. unfold PyStr.slice_to. simpl. f_equal. lia. Qed.

Lemma slice_to_remove_final (s : string) :
  PyStr.slice_to s (-3) = remove_final 3 s.
Proof.
  rewrite slice_to_minus3, substring_take. unfold remove_final.
  by rewrite skipn_rev, rev_involutive, string_length_list.
Qed.

Lemma slice_to_app3 (pre : string) (a b c : ascii) :
  PyStr.slice_to (pre ++ String a (String b (String c EmptyString))) (-3) = pre.
Proof.
  rewrite slice_to_minus3, string_length_append. simpl String.length.
  replace (String.length pre + 3 - 3) with (String.length pre) by lia.
  induction pre as [|d pre IH]; simpl; [done|]. by rewrite IH.
Qed.

(** C10: for every input path the output path is the input path with its
    final three characters removed, followed by ".hyper"; whatever the
    three final characters are, they are the ones dropped, as in
    "data.netcdf", which gives "data.net.hyper". *)
Theorem OUTPUT_HYPER_drops_three_characters (INPUT_NETCDF : string) :
  OUTPUT_HYPER INPUT_NETCDF = remove_final 3 INPUT_NETCDF ++ ".hyper"
  /\ (forall (pre : string) (a b c : ascii),
        OUTPUT_HYPER (pre ++ String a (String b (String c EmptyString))) = pre ++ ".hyper")
  /\ OUTPUT_HYPER "smi.nc" = "smi.hyper"
  /\ OUTPUT_HYPER "data.netcdf" = "data.net.hyper"
  /\ OUTPUT_HYPER "nc" = ".hyper".
Proof.
  unfold OUTPUT_HYPER. split; [by rewrite slice_to_remove_final|].
  split; [intros; by rewrite slice_to_app3|].
  repeat split; reflexivity.
Qed.

(** The output path is never the input path: it is longer. *)
Lemma OUTPUT_HYPER_length (s : string) :
  String.length (OUTPUT_HYPER s) = String.length s - 3 + 6.
Proof.
  unfold OUTPUT_HYPER.
  rewrite string_length_append, slice_to_minus3, substring_take.
  assert (H : forall l, String.length (string_of_list_ascii l) = length l)
    by (induction l; simpl; auto).
  rewrite H, length_take, string_length_list. simpl. lia.
Qed.

Lemma OUTPUT_HYPER_neq (s : string) : OUTPUT_HYPER s <> s.
Proof.
  intros E. apply (f_equal String.length) in E.
  rewrite OUTPUT_HYPER_length in E. lia.
Qed.

(** ** The table writer *)

Lemma create_schema_fresh (name : string) (db : Database) :
  name ∉ schemas db ->
  create_schema name db = Ok {| schemas := {[name]} ∪ schemas db; tables := tables db |}.
Proof. intros H. unfold create_schema. by rewrite decide_False. Qed.

Lemma create_table_fresh (def : TableDefinition) (db : Database) :
  fst (table_name def) ∈ schemas db ->
  tables db !! table_name def = None ->
  create_table def db =
    Ok {| schemas := schemas db;
          tables := <[table_name def :=
                       {| table_columns := columns def; table_rows := [] |}]>
                    (tables db) |}.
Proof. intros Hs Ht. unfold create_table. by rewrite decide_True, Ht. Qed.

Lemma insert_rows_fitting (def : TableDefinition) (rows : list row) (db : Database)
    (t : Table) :
  tables db !! table_name def = Some t ->
  table_columns t = columns def ->
  forallb (row_fits (columns def)) rows = true ->
  insert_rows def rows db =
    Ok {| schemas := schemas db;
          tables := <[table_name def :=
                       {| table_columns := table_columns t;
                          table_rows := table_rows t ++ map (map stored) rows |}]>
                    (tables db) |}.
Proof.
  intros Ht Hc Hr. unfold insert_rows. by rewrite Ht, decide_True, Hr.
Qed.

(** The six statements of the writer on a new database. *)
Lemma table_writer_statements (st : lists) :
  forallb (row_fits (columns schema_data)) (data st) = true ->
  forallb (row_fits (columns schema_geom)) (data_geom st) = true ->
  run_statements
    [ create_schema "Data"; create_schema "Geom";
      create_table schema_data; create_table schema_geom;
      insert_rows schema_data (data st); insert_rows schema_geom (data_geom st) ]
    new_database
  = (specified_database (map (map stored) (data st))
                        (map (map stored) (data_geom st)), Ok tt).
Proof.
  intros Hd Hg. unfold run_statements.
  rewrite create_schema_fresh by schema_membership.
  rewrite create_schema_fresh by schema_membership.
  rewrite create_table_fresh by (try schema_membership; apply lookup_empty).
  rewrite create_table_fresh
    by (try schema_membership; simpl; by rewrite lookup_insert_ne, lookup_empty).
  erewrite insert_rows_fitting;
    [| simpl; by rewrite lookup_insert_ne, lookup_insert_eq | done | done ].
  erewrite insert_rows_fitting;
    [| simpl; by rewrite lookup_insert_ne, lookup_insert_eq | done | done ].
  reflexivity.
Qed.

(** Starting the Hyper process changes no path but [hyperd.log], and none
    that holds a file. *)
Lemma HyperProcess_start_lookup (fs : gmap string file) (path : string) :
  path <> "hyperd.log" \/ is_Some (fs !! path) ->
  HyperProcess_start fs !! path = fs !! path.
Proof.
  unfold HyperProcess_start. intros H.
  destruct (fs !! "hyperd.log") eqn:E; [done|].
  destruct H as [H|[f H]].
  - by rewrite lookup_insert_ne.
  - rewrite lookup_insert_ne; [done|]. intros <-. congruence.
Qed.

Lemma HyperProcess_start_idempotent (fs : gmap string file) :
  HyperProcess_start (HyperProcess_start fs) = HyperProcess_start fs.
Proof.
  unfold HyperProcess_start.
  destruct (fs !! "hyperd.log") eqn:E; [by rewrite E|].
  by rewrite lookup_insert_eq.
Qed.

Lemma HyperProcess_start_insert (fs : gmap string file) (path : string) (f : file) :
  path <> "hyperd.log" ->
  HyperProcess_start (<[path := f]> fs) = <[path := f]> (HyperProcess_start fs).
Proof.
  intros Hp. unfold HyperProcess_start. rewrite lookup_insert_ne by done.
  destruct (fs !! "hyperd.log"); [done|]. by apply insert_insert_ne.
Qed.

Lemma destination_usable_start (fs : gmap string file) (path : string) :
  path <> "hyperd.log" ->
  destination_usable (HyperProcess_start fs) path = destination_usable fs path.
Proof.
  intros Hp. unfold destination_usable.
  rewrite HyperProcess_start_lookup by auto. done.
Qed.

(** The writer, by what is at the output path: a new database replaces
    nothing or a Hyper database, and the connection raises on anything
    else. *)
Lemma table_writer_cases (OUT : string) (st : lists) :
  exists db r, forall fs : gmap string file,
    table_writer OUT st fs =
      if destination_usable (HyperProcess_start fs) OUT
      then (<[OUT := HyperFile db]> (HyperProcess_start fs), r)
      else (HyperProcess_start fs, Raise HyperException).
Proof.
  destruct (run_statements
              [ create_schema "Data"; create_schema "Geom";
                create_table schema_data; create_table schema_geom;
                insert_rows schema_data (data st);
                insert_rows schema_geom (data_geom st) ] new_database)
    as [db r] eqn:E.
  exists db, r. intros fs.
  unfold table_writer, with_Connection, connect, destination_usable.
  destruct (HyperProcess_start fs !! OUT) as [[| | |]|]; try done; by rewrite E.
Qed.

(** The writer on a usable output path and records that fit. *)
Lemma table_writer_usable (OUT : string) (st : lists) (fs : gmap string file) :
  destination_usable fs OUT = true ->
  OUT <> "hyperd.log" ->
  forallb (row_fits (columns schema_data)) (data st) = true ->
  forallb (row_fits (columns schema_geom)) (data_geom st) = true ->
  table_writer OUT st fs =
    (<[OUT := HyperFile (specified_database (map (map stored) (data st))
                                            (map (map stored) (data_geom st)))]>
       (HyperProcess_start fs), Ok tt).
Proof.
  intros Hu Hlog Hd Hg.
  assert (Hu' : fs !! OUT = None \/ exists db, fs !! OUT = Some (HyperFile db)).
  { unfold destination_usable in Hu.
    destruct (fs !! OUT) as [[| | |]|]; try discriminate; eauto. }
  unfold table_writer, with_Connection, connect.
  rewrite HyperProcess_start_lookup by auto.
  destruct Hu' as [->|[db ->]]; by rewrite (table_writer_statements st Hd Hg).
Qed.

(** C7, as amended: for every pair of lists of records fitting the
    declared columns (a string and two numbers each), and an output path
    that holds nothing or a Hyper database, the writer ends without an
    exception and leaves at the output path a database with exactly two
    tables: [Geom.Geom] with the columns (ID: text, Latitude: double,
    Longitude: double), its rows the records of [data_geom], and
    [Data.Data] with the columns (ID: text, Time: double, Value: double),
    its rows the records of [data]; the rows are in the order of the
    records, each field as its column stores it: a string and a float as
    they are, an integer as the nearest double, [masked] as NaN. Starting
    the Hyper process leaves [hyperd.log]; no other path changes. *)
Theorem table_writer_two_tables (OUT : string) (st : lists) (fs : gmap string file) :
  destination_usable fs OUT = true ->
  OUT <> "hyperd.log" ->
  forallb (row_fits (columns schema_data)) (data st) = true ->
  forallb (row_fits (columns schema_geom)) (data_geom st) = true ->
  exists db,
    table_writer OUT st fs = (<[OUT := HyperFile db]> (HyperProcess_start fs), Ok tt)
    /\ dom (tables db) = {[ ("Geom", "Geom"); ("Data", "Data") ]}
    /\ tables db !! ("Geom", "Geom") =
         Some {| table_columns :=
                   [("ID", text); ("Latitude", double); ("Longitude", double)];
                 table_rows := map (map stored) (data_geom st) |}
    /\ tables db !! ("Data", "Data") =
         Some {| table_columns := [("ID", text); ("Time", double); ("Value", double)];
                 table_rows := map (map stored) (data st) |}.
Proof.
  intros Hu Hlog Hd Hg.
  exists (specified_database (map (map stored) (data st))
                             (map (map stored) (data_geom st))).
  split; [|split; [|split]]; try reflexivity.
  by apply table_writer_usable.
Qed.

Lemma table_writer_two_tables_witness :
  exists db,
    table_writer "smi.hyper"
      {| data := [[PStr "0-0"; PInt 100; PFloat 1]];
         data_geom := [[PStr "0-0"; PFloat 51.5; PFloat 10.5];
                       [PStr "0-1"; PFloat 51.5; PMasked]] |}
      example_files
    = (<["smi.hyper" := HyperFile db]> (HyperProcess_start example_files), Ok tt)
    /\ dom (tables db) = {[ ("Geom", "Geom"); ("Data", "Data") ]}
    /\ tables db !! ("Geom", "Geom") =
         Some {| table_columns :=
                   [("ID", text); ("Latitude", double); ("Longitude", double)];
                 table_rows := [[SqlText "0-0"; SqlDouble 51.5; SqlDouble 10.5];
                                [SqlText "0-1"; SqlDouble 51.5; SqlDouble nan]] |}
    /\ tables db !! ("Data", "Data") =
         Some {| table_columns := [("ID", text); ("Time", double); ("Value", double)];
                 table_rows := [[SqlText "0-0"; SqlDouble 100; SqlDouble 1]] |}.
Proof.
  apply (table_writer_two_tables "smi.hyper"
           {| data := [[PStr "0-0"; PInt 100; PFloat 1]];
              data_geom := [[PStr "0-0"; PFloat 51.5; PFloat 10.5];
                            [PStr "0-1"; PFloat 51.5; PMasked]] |}
           example_files); [reflexivity | discriminate | reflexivity | reflexivity].
Defined.

(** C7, as stated, fails on the one measurement record
    [["0-0", 2^53 + 1, 1.0]] written to a free path: the writer ends
    without an exception, and the row of [Data.Data] holds the time
    2^53, which is not the time of the record. *)
Lemma table_rows_counterexample :
  exists db,
    table_writer "smi.hyper"
      {| data := [[PStr "0-0"; PInt 9007199254740993; PFloat 1]]; data_geom := [] |} ∅
    = (<["smi.hyper" := HyperFile db]> (HyperProcess_start ∅), Ok tt)
    /\ tables db !! ("Data", "Data") =
         Some {| table_columns := [("ID", text); ("Time", double); ("Value", double)];
                 table_rows := [[SqlText "0-0"; SqlDouble 9007199254740992;
                                 SqlDouble 1]] |}
    /\ integer_of 9007199254740992 = Some 9007199254740992%Z
    /\ same_field (PInt 9007199254740993) (SqlDouble 9007199254740992) = false.
Proof.
  exists (specified_database
            [[SqlText "0-0"; SqlDouble 9007199254740992; SqlDouble 1]] []).
  split; [|split; [|split]].
  - unfold table_writer, with_Connection, connect.
    rewrite HyperProcess_start_lookup by (left; discriminate).
    rewrite lookup_empty.
    by rewrite (table_writer_statements
                  {| data := [[PStr "0-0"; PInt 9007199254740993; PFloat 1]];
                     data_geom := [] |} eq_refl eq_refl).
  - reflexivity.
  - vm_compute. reflexivity.
  - vm_compute. reflexivity.
Qed.

(** ** The records the loop hands to the writer *)

Lemma ma_read_value (a : masked (list (list float)) (list (list bool))) (y x : nat)
    (v : pyval) :
  (r ← ma_getitem a y; e ← ma_getitem r x; mret (ma_scalar e)) = Ok v ->
  v = PMasked \/ exists f, v = PFloat f.
Proof.
  destruct (ma_getitem a y) as [r|]; simpl; [|discriminate].
  destruct (ma_getitem r x) as [[d [|]]|]; simpl; [| |discriminate];
    intros [= <-]; unfold ma_scalar; simpl; eauto.
Qed.

Lemma lat_at_float (nc : Dataset) (y x : nat) (v : pyval) :
  lat_at nc y x = Ok v -> v = PMasked \/ exists f, v = PFloat f.
Proof.
  unfold lat_at. destruct (variable _ _) as [a|]; simpl; [|discriminate].
  apply ma_read_value.
Qed.

Lemma lon_at_float (nc : Dataset) (y x : nat) (v : pyval) :
  lon_at nc y x = Ok v -> v = PMasked \/ exists f, v = PFloat f.
Proof.
  unfold lon_at. destruct (variable _ _) as [a|]; simpl; [|discriminate].
  apply ma_read_value.
Qed.

Lemma time_at_int (nc : Dataset) (i : nat) (v : pyval) :
  time_at nc i = Ok v -> exists z, v = PInt z.
Proof.
  unfold time_at. destruct (variable _ _) as [a|]; simpl; [|discriminate].
  destruct (getitem a i) as [z|]; simpl; [|discriminate].
  intros [= <-]. eauto.
Qed.

Lemma SMI_at_float (nc : Dataset) (i y x : nat) (v : pyval) :
  SMI_at nc i y x = Ok v -> v = PMasked \/ exists f, v = PFloat f.
Proof.
  unfold SMI_at. destruct (variable _ _) as [a|]; simpl; [|discriminate].
  destruct (ma_getitem a i) as [s|]; simpl; [|discriminate].
  apply ma_read_value.
Qed.

(** Every record the loop builds fits the columns of its table. *)
Lemma extract_rows_fit (nc : Dataset) (n_steps : nat) (st : lists) :
  extract nc n_steps = Ok st ->
  forallb (row_fits (columns schema_data)) (data st) = true
  /\ forallb (row_fits (columns schema_geom)) (data_geom st) = true.
Proof.
  unfold extract, dimension_size.
  destruct (dimensions nc !! "northing") as [y_size|]; [|discriminate].
  destruct (dimensions nc !! "easting") as [x_size|]; [|discriminate].
  simpl. intros [_ ->]%extraction_loop_extend. simpl.
  split; apply forallb_forall; intros r Hr%list_elem_of_In.
  - apply elem_of_measurement_rows in Hr as (i & x & y & _ & _ & _ & Hr).
    apply elem_of_data_rows in Hr as (tv & v & Hm & Htv & Hv & ->).
    apply time_at_int in Htv as [z ->].
    by destruct (SMI_at_float _ _ _ _ _ Hv) as [->|[f ->]].
  - apply elem_of_geometry_rows in Hr as (i & x & y & _ & _ & _ & Hr).
    apply elem_of_geom_rows in Hr as (_ & la & lo & Hla & Hlo & ->).
    by destruct (lat_at_float _ _ _ _ Hla) as [->|[f1 ->]];
      destruct (lon_at_float _ _ _ _ Hlo) as [->|[f2 ->]].
Qed.

(** ** Whole runs of the notebook *)

(** The output path is not the path of the log: it ends in ".hyper". *)
Lemma OUTPUT_HYPER_not_log (s : string) : OUTPUT_HYPER s <> "hyperd.log".
Proof.
  unfold OUTPUT_HYPER. generalize (PyStr.slice_to s (-3)). intros pre E.
  do 11 (destruct pre as [|? pre]; simpl in E; try discriminate E;
         injection E as _ E).
Qed.

Lemma read_stage_other_file (INPUT OUT : string) (f : file) (fs : gmap string file) :
  OUT <> INPUT -> read_stage (<[OUT := f]> fs) INPUT = read_stage fs INPUT.
Proof.
  intros Hne. unfold read_stage, netCDF4_Dataset. by rewrite lookup_insert_ne.
Qed.

(** A file that the read stage opened is still there, unchanged, once the
    Hyper process has started. *)
Lemma read_stage_after_start (INPUT : string) (fs : gmap string file)
    (nc : Dataset) (y_size x_size : nat) :
  read_stage fs INPUT = Ok (nc, y_size, x_size) ->
  read_stage (HyperProcess_start fs) INPUT = Ok (nc, y_size, x_size).
Proof.
  intros R. rewrite <- R. unfold read_stage, netCDF4_Dataset.
  rewrite HyperProcess_start_lookup; [done|]. right.
  unfold read_stage, netCDF4_Dataset in R.
  destruct (fs !! INPUT); [done|discriminate].
Qed.

(** C8: when the read stage (opening the file, reading the two grid
    dimensions) raises, the run ends with that exception and the files are
    those it started with: no output file is created, and one that is
    there stays as it is. *)
Theorem read_failure_leaves_files (INPUT_NETCDF : string) (n_steps : nat)
    (fs : gmap string file) (e : exn) :
  read_stage fs INPUT_NETCDF = Raise e ->
  notebook INPUT_NETCDF n_steps fs = (fs, Raise e).
Proof. intros H. unfold notebook. by rewrite H. Qed.

Lemma read_failure_leaves_files_witness :
  read_stage example_files "smi.nc" = Raise (KeyError "northing")
  /\ notebook "smi.nc" 1 example_files = (example_files, Raise (KeyError "northing"))
  /\ example_files !! OUTPUT_HYPER "smi.nc" = Some (HyperFile new_database).
Proof.
  split; [reflexivity|].
  split; [apply (read_failure_leaves_files "smi.nc" 1 example_files); reflexivity|].
  reflexivity.
Defined.

(** An exception in the loop ends the run before the writer, too. *)
Lemma extraction_failure_leaves_files (INPUT_NETCDF : string) (n_steps : nat)
    (fs : gmap string file) (nc : Dataset) (y_size x_size : nat) (e : exn) :
  read_stage fs INPUT_NETCDF = Ok (nc, y_size, x_size) ->
  extraction_loop nc y_size x_size n_steps empty_lists = Raise e ->
  notebook INPUT_NETCDF n_steps fs = (fs, Raise e).
Proof. intros H1 H2. unfold notebook. by rewrite H1, H2. Qed.

(** C9: a second run of the notebook, on the files the first run left,
    ends as the first did and leaves the files as the first left them: the
    output database of the second run is that of the first. *)
Theorem notebook_idempotent (INPUT_NETCDF : string) (n_steps : nat)
    (fs : gmap string file) :
  notebook INPUT_NETCDF n_steps (fst (notebook INPUT_NETCDF n_steps fs))
  = notebook INPUT_NETCDF n_steps fs.
Proof.
  unfold notebook.
  destruct (read_stage fs INPUT_NETCDF) as [[[nc y_size] x_size]|e] eqn:R.
  - destruct (extraction_loop nc y_size x_size n_steps empty_lists) as [st|e] eqn:X.
    + destruct (table_writer_cases (OUTPUT_HYPER INPUT_NETCDF) st) as (db & r & Hw).
      pose proof (OUTPUT_HYPER_not_log INPUT_NETCDF) as Hlog.
      pose proof (read_stage_after_start _ _ _ _ _ R) as R'.
      rewrite (Hw fs).
      destruct (destination_usable (HyperProcess_start fs) (OUTPUT_HYPER INPUT_NETCDF))
        eqn:U; simpl.
      * rewrite read_stage_other_file by apply OUTPUT_HYPER_neq.
        rewrite R', X, Hw.
        rewrite HyperProcess_start_insert, HyperProcess_start_idempotent by done.
        unfold destination_usable at 1. rewrite lookup_insert_eq.
        by rewrite insert_insert_eq.
      * rewrite R', X, Hw, HyperProcess_start_idempotent. by rewrite U.
    + simpl. by rewrite R, X.
  - simpl. by rewrite R.
Qed.

(** On a well-formed file whose selected time steps each have a masked
    entry, with a usable output path, the whole run ends without an
    exception and leaves the two tables with the records of the loop. *)
Lemma notebook_well_formed (INPUT_NETCDF : string) (n_steps : nat)
    (fs : gmap string file) (nc : Dataset) (y_size x_size : nat) :
  read_stage fs INPUT_NETCDF = Ok (nc, y_size, x_size) ->
  well_formed nc = true ->
  n_steps <= n_times nc ->
  steps_have_masked_cells nc n_steps = true ->
  destination_usable fs (OUTPUT_HYPER INPUT_NETCDF) = true ->
  notebook INPUT_NETCDF n_steps fs =
    (<[OUTPUT_HYPER INPUT_NETCDF :=
        HyperFile (specified_database
                     (map (map stored) (measurement_rows nc y_size x_size n_steps))
                     (map (map stored) (geometry_rows nc y_size x_size n_steps)))]>
       (HyperProcess_start fs),
     Ok tt).
Proof.
  intros R Hwf Hle Hs Hu.
  assert (Hd : dimension_size nc "northing" = Ok y_size
               /\ dimension_size nc "easting" = Ok x_size).
  { unfold read_stage in R. destruct (netCDF4_Dataset fs INPUT_NETCDF) as [nc'|];
      simpl in R; [|discriminate].
    destruct (dimension_size nc' "northing") as [ys|] eqn:E1; simpl in R; [|discriminate].
    destruct (dimension_size nc' "easting") as [xs|] eqn:E2; simpl in R; [|discriminate].
    by injection R as -> -> ->. }
  destruct Hd as [Hn He].
  pose proof (extract_well_formed nc y_size x_size n_steps Hwf Hn He Hle Hs) as Hx.
  destruct (extract_rows_fit nc n_steps _ Hx) as [Hfd Hfg].
  unfold extract in Hx. rewrite Hn, He in Hx. simpl in Hx.
  unfold notebook. rewrite R, Hx.
  apply table_writer_usable; auto. apply OUTPUT_HYPER_not_log.
Qed.

(** Had the connection been opened to keep an existing database, the
    writer's first statement would raise on the output of an earlier run. *)
Example keeping_mode_second_run_raises (d g : list (list sqlval))
    (fs : gmap string file) :
  snd (with_Connection CREATE_IF_NOT_EXISTS "smi.hyper" [create_schema "Data"]
         (<["smi.hyper" := HyperFile (specified_database d g)]> fs))
  = Raise HyperException.
Proof.
  unfold with_Connection, connect. rewrite lookup_insert_eq. reflexivity.
Qed.

(** ** More on the loop: order, reruns, longer ranges *)

Lemma for_each_app {S : Type} (l1 l2 : list nat) (body : nat -> S -> result S)
    (st : S) :
  for_each (l1 ++ l2) body st = (st' ← for_each l1 body st; for_each l2 body st').
Proof.
  revert st. induction l1 as [|v l1 IH]; intros st; simpl; [done|].
  destruct (body v st) as [st1|e]; simpl; [apply IH|done].
Qed.

Lemma fmap_bind_list {A B C : Type} (f : B -> C) (g : A -> list B) (l : list A) :
  f <$> (l ≫= g) = l ≫= (fun a => f <$> g a).
Proof.
  induction l as [|a l IH]; [done|].
  by rewrite !bind_cons, fmap_app, IH.
Qed.

Lemma bind_ext_in {A B : Type} (f g : A -> list B) (l : list A) :
  (forall a, a ∈ l -> f a = g a) -> l ≫= f = l ≫= g.
Proof.
  intros H. apply Forall_bind_ext, Forall_forall. exact H.
Qed.

Lemma range_split (n k : nat) : range 0 (n + k) = (range 0 n ++ seq n k)%list.
Proof. unfold range. rewrite !Nat.sub_0_r. apply seq_app. Qed.

Lemma extract_dimensions (nc : Dataset) (n_steps : nat) (st : lists) :
  extract nc n_steps = Ok st ->
  exists y_size x_size,
    dimension_size nc "northing" = Ok y_size
    /\ dimension_size nc "easting" = Ok x_size
    /\ extraction_loop nc y_size x_size n_steps empty_lists = Ok st.
Proof.
  unfold extract.
  destruct (dimension_size nc "northing") as [ys|]; [|discriminate].
  destruct (dimension_size nc "easting") as [xs|]; [|discriminate].
  simpl. eauto.
Qed.

(** X1: the geometry records of a completed run over one or more time
    steps come column by column: all rows [y] of column 0, then all rows
    of column 1, and so on; their ids are [combine y x] in that order. *)
Theorem geometry_ids_column_major (nc : Dataset) (rows cols n_steps : nat)
    (st : lists) :
  dimension_size nc "northing" = Ok rows ->
  dimension_size nc "easting" = Ok cols ->
  1 <= n_steps ->
  extract nc n_steps = Ok st ->
  record_id <$> data_geom st =
    (x ← range 0 cols; y ← range 0 rows; [Some (combine y x)]).
Proof.
  intros Hn He H1 Hx. unfold extract in Hx. rewrite Hn, He in Hx. simpl in Hx.
  apply extraction_loop_extend in Hx as [Hread ->]. simpl.
  destruct n_steps as [|n]; [lia|]. rewrite geometry_rows_first.
  rewrite fmap_bind_list. apply bind_ext_in. intros x Hx%elem_of_range.
  rewrite fmap_bind_list. apply bind_ext_in. intros y Hy%elem_of_range.
  destruct (Hread 0 x y ltac:(lia) Hx Hy) as [Hg _].
  destruct (Hg eq_refl) as [[la Hla] [lo Hlo]].
  unfold geom_rows. by rewrite Hla, Hlo.
Qed.

Lemma geometry_ids_column_major_witness :
  exists st, extract example_grid 1 = Ok st
    /\ record_id <$> data_geom st = [Some "0-0"; Some "1-0"; Some "0-1"; Some "1-1"].
Proof.
  eexists. split; [vm_compute; reflexivity|].
  apply (geometry_ids_column_major example_grid 2 2 1);
    [reflexivity | reflexivity | lia | vm_compute; reflexivity].
Defined.

(** X2: on a grid with no row or with no column the loop reads nothing:
    whatever the number of time steps asked for and whatever the file
    holds, it ends without an exception and leaves both lists as they
    were. *)
Theorem empty_grid_reads_nothing (nc : Dataset) (size n_steps : nat) (st : lists) :
  extraction_loop nc 0 size n_steps st = Ok st
  /\ extraction_loop nc size 0 n_steps st = Ok st.
Proof.
  split; apply extraction_loop_extend; (split; [intros; lia|]).
  - unfold measurement_rows, geometry_rows.
    rewrite !(bind_all_nil _ (range 0 n_steps)); [by rewrite extend_nil| |];
      intros i _; apply bind_all_nil; intros x _; done.
  - unfold measurement_rows, geometry_rows.
    rewrite !(bind_all_nil _ (range 0 n_steps)); [by rewrite extend_nil| |];
      intros i _; done.
Qed.

(** X3: the loop appends to whatever the two lists hold. Run a second
    time on the lists the first run left (cell 14 again without cell 12),
    it ends without an exception and appends the same records once more,
    so each list then holds every record of the run twice. *)
Theorem rerun_appends_again (nc : Dataset) (y_size x_size n_steps : nat)
    (st st1 : lists) :
  extraction_loop nc y_size x_size n_steps st = Ok st1 ->
  exists d g,
    st1 = extend st d g
    /\ extraction_loop nc y_size x_size n_steps st1 = Ok (extend st (d ++ d) (g ++ g)).
Proof.
  intros [Hread ->]%extraction_loop_extend.
  exists (measurement_rows nc y_size x_size n_steps),
         (geometry_rows nc y_size x_size n_steps).
  split; [done|]. rewrite <- extend_extend.
  apply extraction_loop_extend. by split.
Qed.

Lemma rerun_appends_again_witness :
  exists d g,
    {| data := [[PStr "0-0"; PInt 100; PFloat 1]; [PStr "1-0"; PInt 100; PFloat 2];
                [PStr "1-1"; PInt 100; PFloat 3]];
       data_geom := [[PStr "0-0"; PFloat 51.5; PFloat 10.5];
                     [PStr "1-0"; PFloat 51.25; PFloat 10.5];
                     [PStr "0-1"; PFloat 51.5; PFloat 10.75];
                     [PStr "1-1"; PFloat 51.25; PFloat 10.75]] |}
    = extend empty_lists d g
    /\ extraction_loop example_grid 2 2 1
         {| data := [[PStr "0-0"; PInt 100; PFloat 1]; [PStr "1-0"; PInt 100; PFloat 2];
                     [PStr "1-1"; PInt 100; PFloat 3]];
            data_geom := [[PStr "0-0"; PFloat 51.5; PFloat 10.5];
                          [PStr "1-0"; PFloat 51.25; PFloat 10.5];
                          [PStr "0-1"; PFloat 51.5; PFloat 10.75];
                          [PStr "1-1"; PFloat 51.25; PFloat 10.75]] |}
       = Ok (extend empty_lists (d ++ d) (g ++ g)).
Proof.
  apply (rerun_appends_again example_grid 2 2 1 empty_lists).
  vm_compute. reflexivity.
Defined.

(** X4: asking for more time steps only appends. When the runs over [n]
    and over [n + k] time steps both end without an exception, the
    measurement list of the shorter run is the beginning of that of the
    longer one, and from one time step on the geometry lists are equal. *)
Theorem longer_range_extends (nc : Dataset) (n k : nat) (st st' : lists) :
  extract nc n = Ok st ->
  extract nc (n + k) = Ok st' ->
  (exists more, data st' = (data st ++ more)%list)
  /\ (1 <= n -> data_geom st' = data_geom st).
Proof.
  intros (ys & xs & Hn & He & H1)%extract_dimensions
         (ys' & xs' & Hn' & He' & H2)%extract_dimensions.
  rewrite Hn in Hn'. rewrite He in He'.
  injection Hn' as <-. injection He' as <-.
  apply extraction_loop_extend in H1 as [_ ->].
  apply extraction_loop_extend in H2 as [_ ->]. simpl. split.
  - unfold measurement_rows. rewrite range_split, bind_app. eauto.
  - intros Hle. destruct n as [|n]; [lia|].
    change (S n + k) with (S (n + k)). by rewrite !geometry_rows_first.
Qed.

Lemma longer_range_extends_witness :
  (exists more,
     [[PStr "0-0"; PInt 100; PFloat 0.5]; [PStr "0-1"; PInt 200; PFloat 0.25]]
     = ([[PStr "0-0"; PInt 100; PFloat 0.5]] ++ more)%list)
  /\ (1 <= 1 ->
      [[PStr "0-0"; PFloat 51.5; PFloat 10.5]; [PStr "0-1"; PFloat 51.5; PFloat 10.75]]
      = [[PStr "0-0"; PFloat 51.5; PFloat 10.5]; [PStr "0-1"; PFloat 51.5; PFloat 10.75]]).
Proof.
  apply (longer_range_extends two_step_grid 1 1
           {| data := [[PStr "0-0"; PInt 100; PFloat 0.5]];
              data_geom := [[PStr "0-0"; PFloat 51.5; PFloat 10.5];
                            [PStr "0-1"; PFloat 51.5; PFloat 10.75]] |}
           {| data := [[PStr "0-0"; PInt 100; PFloat 0.5];
                       [PStr "0-1"; PInt 200; PFloat 0.25]];
              data_geom := [[PStr "0-0"; PFloat 51.5; PFloat 10.5];
                            [PStr "0-1"; PFloat 51.5; PFloat 10.75]] |});
    vm_compute; reflexivity.
Defined.

(** ** Runs that end with an exception *)

Lemma read_stage_dimensions (fs : gmap string file) (INPUT_NETCDF : string)
    (nc : Dataset) (y_size x_size : nat) :
  read_stage fs INPUT_NETCDF = Ok (nc, y_size, x_size) ->
  fs !! INPUT_NETCDF = Some (NetCDFFile nc)
  /\ dimension_size nc "northing" = Ok y_size
  /\ dimension_size nc "easting" = Ok x_size.
Proof.
  unfold read_stage, netCDF4_Dataset.
  destruct (fs !! INPUT_NETCDF) as [[nc'| | |]|]; simpl; try discriminate.
  destruct (dimension_size nc' "northing") as [ys|] eqn:E1; simpl; [|discriminate].
  destruct (dimension_size nc' "easting") as [xs|] eqn:E2; simpl; [|discriminate].
  intros [= <- <- <-]. auto.
Qed.

(** An exception at cell [(0, 0)] of a time step is the exception of the
    time step: it is the first cell visited. *)
Lemma time_step_first_cell (nc : Dataset) (y_size x_size i : nat) (st : lists)
    (e : exn) :
  0 < y_size -> 0 < x_size ->
  cell_body nc i 0 0 st = Raise e ->
  time_step nc y_size x_size i st = Raise e.
Proof.
  intros Hy Hx Hc. unfold time_step, column_loop, range.
  destruct x_size as [|xs]; [lia|]. destruct y_size as [|ys]; [lia|].
  simpl. by rewrite Hc.
Qed.

(** A loop whose body can only end normally or with [e] can only end
    normally or with [e]. *)
Lemma for_each_outcome {S : Type} (l : list nat) (body : nat -> S -> result S)
    (e : exn) :
  (forall v st, v ∈ l -> (exists st', body v st = Ok st') \/ body v st = Raise e) ->
  forall st, (exists st', for_each l body st = Ok st') \/ for_each l body st = Raise e.
Proof.
  induction l as [|v l IH]; intros H st; simpl; [eauto|].
  destruct (H v st ltac:(left)) as [[st1 ->]| ->]; simpl; [|auto].
  apply IH. intros v' st' Hv'. apply H. by right.
Qed.

Lemma mask_at_out_of_range (nc : Dataset) (i y x : nat) :
  well_formed nc = true -> n_times nc <= i -> mask_at nc i y x = Raise IndexError.
Proof.
  unfold well_formed, n_times, mask_at, ma_getitem, getitem.
  destruct (dimensions nc !! "northing"); [|discriminate].
  destruct (dimensions nc !! "easting"); [|discriminate].
  destruct (var_time nc) as [t|]; [|discriminate].
  destruct (var_lat nc); [|discriminate].
  destruct (var_lon nc); [|discriminate].
  destruct (var_SMI nc) as [[smi_d smi_m]|]; [|discriminate]. simpl.
  intros [[_ Hd]%andb_prop _]%andb_prop Hi.
  unfold has_shape3 in Hd. apply andb_prop in Hd as [Hl%Nat.eqb_eq _].
  rewrite (lookup_ge_None_2 smi_d i) by lia. done.
Qed.

Lemma cell_body_mask_raises (nc : Dataset) (i x y : nat) (st : lists) (e : exn) :
  (exists la, lat_at nc y x = Ok la) -> (exists lo, lon_at nc y x = Ok lo) ->
  mask_at nc i y x = Raise e ->
  cell_body nc i x y st = Raise e.
Proof.
  intros [la Hla] [lo Hlo] Hm. unfold cell_body.
  rewrite Hla, Hlo, Hm. by destruct (decide (i = 0)).
Qed.

(** On a well-formed file the body of the loop, at a cell of the grid and
    a time step the file holds, ends normally when the time step has a
    masked entry and with [IndexError] when it has none. *)
Lemma cell_body_outcome (nc : Dataset) (y_size x_size i x y : nat) (st : lists) :
  well_formed nc = true ->
  dimension_size nc "northing" = Ok y_size ->
  dimension_size nc "easting" = Ok x_size ->
  i < n_times nc -> x < x_size -> y < y_size ->
  (step_has_masked_cell nc i = true /\ exists st', cell_body nc i x y st = Ok st')
  \/ (step_has_masked_cell nc i = false /\ cell_body nc i x y st = Raise IndexError).
Proof.
  intros Hwf Hn He Hi Hx Hy.
  destruct (step_has_masked_cell nc i) eqn:Hs; [left|right]; (split; [done|]).
  - eexists. apply cell_body_extend. split; [|done].
    by apply (well_formed_readable nc y_size x_size).
  - destruct (well_formed_reads nc y_size x_size Hwf Hn He i x y Hx Hy)
      as (Hla & Hlo & Hrest).
    destruct (Hrest Hi) as (_ & _ & _ & Hm).
    apply cell_body_mask_raises; auto.
Qed.

Lemma extraction_loop_outcome (nc : Dataset) (y_size x_size n : nat) (st : lists) :
  well_formed nc = true ->
  dimension_size nc "northing" = Ok y_size ->
  dimension_size nc "easting" = Ok x_size ->
  n <= n_times nc ->
  (exists st', extraction_loop nc y_size x_size n st = Ok st')
  \/ extraction_loop nc y_size x_size n st = Raise IndexError.
Proof.
  intros Hwf Hn He Hle. unfold extraction_loop, time_step, column_loop.
  apply for_each_outcome. intros i st1 Hi%elem_of_range.
  apply for_each_outcome. intros x st2 Hx%elem_of_range.
  apply for_each_outcome. intros y st3 Hy%elem_of_range.
  destruct (cell_body_outcome nc y_size x_size i x y st3 Hwf Hn He)
    as [[_ H]|[_ H]]; auto; lia.
Qed.

(** On a well-formed file with at least one cell, a selected time step
    [t] whose first cell raises [IndexError] ends the loop with
    [IndexError], whether an earlier time step raised it already or not. *)
Lemma extraction_loop_raises (nc : Dataset) (y_size x_size n t : nat) (st : lists) :
  well_formed nc = true ->
  dimension_size nc "northing" = Ok y_size ->
  dimension_size nc "easting" = Ok x_size ->
  0 < y_size -> 0 < x_size ->
  t < n -> t <= n_times nc ->
  (forall s, cell_body nc t 0 0 s = Raise IndexError) ->
  extraction_loop nc y_size x_size n st = Raise IndexError.
Proof.
  intros Hwf Hn He Hy Hx Ht Hle Hc.
  destruct (extraction_loop_outcome nc y_size x_size t st Hwf Hn He Hle)
    as [[st1 H1]|H1];
    unfold extraction_loop in *;
    replace n with (t + S (n - t - 1)) by lia;
    rewrite range_split, for_each_app, H1; simpl; [|done].
  by rewrite (time_step_first_cell nc y_size x_size t st1 IndexError).
Qed.

Lemma without_masked_cell_raises (nc : Dataset) (rows cols n_steps t : nat) :
  well_formed nc = true ->
  dimension_size nc "northing" = Ok rows ->
  dimension_size nc "easting" = Ok cols ->
  0 < rows -> 0 < cols ->
  t < n_steps -> n_steps <= n_times nc ->
  step_has_masked_cell nc t = false ->
  extraction_loop nc rows cols n_steps empty_lists = Raise IndexError.
Proof.
  intros Hwf Hn He Hr Hc Ht Hle Hs.
  apply (extraction_loop_raises nc rows cols n_steps t); auto; [lia|].
  intros s.
  destruct (cell_body_outcome nc rows cols t 0 0 s Hwf Hn He)
    as [[H _]|[_ H]]; auto; [lia|congruence].
Qed.

(** C1, at the inputs where the code departs from it: on a well-formed
    file with at least one cell, when a selected time step has no masked
    entry the loop does not give a record for each of its cells: it ends
    with [IndexError], raised by the read of the mask at the first cell of
    the first such time step. *)
Theorem time_step_without_masked_cell_raises (nc : Dataset)
    (rows cols n_steps t : nat) :
  well_formed nc = true ->
  dimension_size nc "northing" = Ok rows ->
  dimension_size nc "easting" = Ok cols ->
  0 < rows -> 0 < cols ->
  t < n_steps -> n_steps <= n_times nc ->
  step_has_masked_cell nc t = false ->
  (forall y x, y < rows -> x < cols -> mask_at nc t y x = Raise IndexError)
  /\ extract nc n_steps = Raise IndexError.
Proof.
  intros Hwf Hn He Hr Hc Ht Hle Hs. split.
  - intros y x Hy Hx.
    destruct (well_formed_reads nc rows cols Hwf Hn He t x y Hx Hy) as (_ & _ & H).
    destruct H as (_ & _ & _ & H); [lia|]. auto.
  - unfold extract. rewrite Hn, He. simpl.
    by apply (without_masked_cell_raises nc rows cols n_steps t).
Qed.

Lemma time_step_without_masked_cell_raises_witness :
  (forall y x, y < 2 -> x < 2 -> mask_at unmasked_grid 0 y x = Raise IndexError)
  /\ extract unmasked_grid 1 = Raise IndexError.
Proof.
  apply (time_step_without_masked_cell_raises unmasked_grid 2 2 1 0);
    [reflexivity | reflexivity | reflexivity | lia | lia | lia
    | vm_compute; lia | reflexivity].
Defined.

(** C2, at the input where the code departs from it: on the 2 by 2 grid
    with no masked entry, for any one or more selected time steps, the
    first cell has its latitude and longitude read and the read of its
    mask raises [IndexError]; the loop ends there, the writer is not
    reached, and no geometry list of [2 * 2] records comes out of the
    run. *)
Theorem unmasked_grid_gives_no_geometry (n : nat) :
  well_formed unmasked_grid = true
  /\ lat_at unmasked_grid 0 0 = Ok (PFloat 51.5)
  /\ lon_at unmasked_grid 0 0 = Ok (PFloat 10.5)
  /\ cell_body unmasked_grid 0 0 0 empty_lists = Raise IndexError
  /\ extract unmasked_grid (S n) = Raise IndexError
  /\ notebook "smi.nc" (S n) {[ "smi.nc" := NetCDFFile unmasked_grid ]}
     = ({[ "smi.nc" := NetCDFFile unmasked_grid ]}, Raise IndexError).
Proof.
  assert (X : extraction_loop unmasked_grid 2 2 (S n) empty_lists = Raise IndexError).
  { unfold extraction_loop. change (range 0 (S n)) with (0 :: seq 1 n).
    cbn [for_each].
    rewrite (time_step_first_cell unmasked_grid 2 2 0 empty_lists IndexError);
      [done | lia | lia | vm_compute; reflexivity]. }
  do 4 (split; [reflexivity|]). split.
  - unfold extract.
    change (dimension_size unmasked_grid "northing") with (@Ok nat 2).
    change (dimension_size unmasked_grid "easting") with (@Ok nat 2).
    exact X.
  - unfold notebook.
    change (read_stage {[ "smi.nc" := NetCDFFile unmasked_grid ]} "smi.nc")
      with (@Ok (Dataset * nat * nat) (unmasked_grid, 2, 2)).
    cbv beta iota. by rewrite X.
Qed.

Lemma forallb_false_elem {A : Type} (f : A -> bool) (l : list A) :
  forallb f l = false -> exists a, a ∈ l /\ f a = false.
Proof.
  induction l as [|a l IH]; simpl; [discriminate|].
  destruct (f a) eqn:E; simpl.
  - intros (b & Hb & Hf)%IH. exists b. split; [by right|done].
  - intros _. exists a. split; [by left|done].
Qed.

(** X16: on a well-formed file with at least one cell, over time steps
    the file holds, the loop ends without an exception exactly when each
    selected time step has a masked entry. *)
Theorem extract_completes_iff (nc : Dataset) (rows cols n_steps : nat) :
  well_formed nc = true ->
  dimension_size nc "northing" = Ok rows ->
  dimension_size nc "easting" = Ok cols ->
  0 < rows -> 0 < cols ->
  n_steps <= n_times nc ->
  (exists st, extract nc n_steps = Ok st) <-> steps_have_masked_cells nc n_steps = true.
Proof.
  intros Hwf Hn He Hr Hc Hle. split.
  - intros [st Hx].
    destruct (steps_have_masked_cells nc n_steps) eqn:Hs; [done|].
    apply forallb_false_elem in Hs as (t & Ht%elem_of_range & Hs).
    unfold extract in Hx. rewrite Hn, He in Hx. simpl in Hx.
    rewrite (without_masked_cell_raises nc rows cols n_steps t) in Hx; auto.
    discriminate.
  - intros Hs. eexists. by apply extract_well_formed.
Qed.

Lemma extract_completes_iff_witness :
  ((exists st, extract example_grid 1 = Ok st)
   <-> steps_have_masked_cells example_grid 1 = true)
  /\ ((exists st, extract unmasked_grid 1 = Ok st)
      <-> steps_have_masked_cells unmasked_grid 1 = true)
  /\ steps_have_masked_cells example_grid 1 = true
  /\ steps_have_masked_cells unmasked_grid 1 = false.
Proof.
  split; [|split; [|split; reflexivity]].
  - apply (extract_completes_iff example_grid 2 2 1);
      [reflexivity | reflexivity | reflexivity | lia | lia | vm_compute; lia].
  - apply (extract_completes_iff unmasked_grid 2 2 1);
      [reflexivity | reflexivity | reflexivity | lia | lia | vm_compute; lia].
Defined.

(** X5: on a well-formed file with at least one cell, asking for more
    time steps than the file holds ends the run with [IndexError] at the
    first time step past the end; the writer is not reached, so no file
    changes, however many steps were in range. *)
Theorem too_many_time_steps (INPUT_NETCDF : string) (n_steps : nat)
    (fs : gmap string file) (nc : Dataset) (rows cols : nat) :
  read_stage fs INPUT_NETCDF = Ok (nc, rows, cols) ->
  well_formed nc = true ->
  0 < rows -> 0 < cols ->
  n_times nc < n_steps ->
  notebook INPUT_NETCDF n_steps fs = (fs, Raise IndexError).
Proof.
  intros R Hwf Hr Hc Hn.
  destruct (read_stage_dimensions _ _ _ _ _ R) as (_ & Hdn & Hde).
  unfold notebook. rewrite R.
  assert (X : extraction_loop nc rows cols n_steps empty_lists = Raise IndexError);
    [|by rewrite X].
  apply (extraction_loop_raises nc rows cols n_steps (n_times nc)); auto.
  intros s.
  destruct (well_formed_reads nc rows cols Hwf Hdn Hde (n_times nc) 0 0 Hc Hr)
    as (Hla & Hlo & _).
  apply cell_body_mask_raises; auto. by apply mask_at_out_of_range.
Qed.

Lemma too_many_time_steps_witness :
  notebook "smi.nc" 2 sample_files = (sample_files, Raise IndexError).
Proof.
  apply (too_many_time_steps "smi.nc" 2 sample_files example_grid 2 2);
    [reflexivity | reflexivity | lia | lia | vm_compute; lia].
Defined.

(** X6: when the file has no [lat] variable and the grid has at least one
    cell, a run over one or more time steps ends with [KeyError] for
    ['lat'] at the very first cell; the writer is not reached and no file
    changes. *)
Theorem missing_lat_variable (INPUT_NETCDF : string) (n_steps : nat)
    (fs : gmap string file) (nc : Dataset) (rows cols : nat) :
  read_stage fs INPUT_NETCDF = Ok (nc, rows, cols) ->
  var_lat nc = None ->
  0 < rows -> 0 < cols -> 0 < n_steps ->
  notebook INPUT_NETCDF n_steps fs = (fs, Raise (KeyError "lat")).
Proof.
  intros R Hlat Hr Hc Hn. unfold notebook. rewrite R.
  assert (X : extraction_loop nc rows cols n_steps empty_lists
              = Raise (KeyError "lat")); [|by rewrite X].
  unfold extraction_loop, range. destruct n_steps as [|n]; [lia|]. simpl.
  rewrite (time_step_first_cell nc rows cols 0 empty_lists (KeyError "lat")); auto.
  unfold cell_body, lat_at. by rewrite Hlat.
Qed.

Lemma missing_lat_variable_witness :
  notebook "smi.nc" 1 {[ "smi.nc" := NetCDFFile grid_without_lat ]}
  = ({[ "smi.nc" := NetCDFFile grid_without_lat ]}, Raise (KeyError "lat")).
Proof.
  apply (missing_lat_variable "smi.nc" 1 _ grid_without_lat 2 2);
    [reflexivity | reflexivity | lia | lia | lia].
Defined.

(** ** What a run does to the files *)

(** X7: a run changes no file but the one at the output path and the log
    of the Hyper process, [hyperd.log]: whatever the input and however the
    run ends, every other path holds what it held before; the input file
    is among them unless it is named [hyperd.log]. *)
Theorem notebook_touches_output_only (INPUT_NETCDF : string) (n_steps : nat)
    (fs : gmap string file) (path : string) :
  path <> OUTPUT_HYPER INPUT_NETCDF ->
  path <> "hyperd.log" ->
  fst (notebook INPUT_NETCDF n_steps fs) !! path = fs !! path.
Proof.
  intros Hp Hlog. unfold notebook.
  destruct (read_stage fs INPUT_NETCDF) as [[[nc y_size] x_size]|e]; [|done].
  destruct (extraction_loop nc y_size x_size n_steps empty_lists) as [st|e]; [|done].
  destruct (table_writer_cases (OUTPUT_HYPER INPUT_NETCDF) st) as (db & r & Hw).
  rewrite Hw.
  destruct (destination_usable _ _); simpl.
  - rewrite lookup_insert_ne by done. apply HyperProcess_start_lookup. auto.
  - apply HyperProcess_start_lookup. auto.
Qed.

Lemma notebook_touches_output_only_witness :
  fst (notebook "smi.nc" 1 sample_files) !! "smi.nc" = sample_files !! "smi.nc".
Proof.
  apply (notebook_touches_output_only "smi.nc" 1 sample_files "smi.nc").
  - vm_compute. discriminate.
  - discriminate.
Defined.


(** ** More on the output path *)

Lemma string_of_list_ascii_app (l1 l2 : list ascii) :
  string_of_list_ascii (l1 ++ l2) = string_of_list_ascii l1 ++ string_of_list_ascii l2.
Proof. induction l1 as [|c l1 IH]; simpl; [done|]. by rewrite IH. Qed.

Lemma string_of_list_ascii_length (l : list ascii) :
  String.length (string_of_list_ascii l) = length l.
Proof. induction l; simpl; auto. Qed.

(** X9: the output path keeps a beginning of the input path and replaces
    the rest, the final three characters (all of them when the path has
    fewer), by ".hyper". It is longer than the input path, so it is never
    the input path itself: the writer cannot replace the file it reads. *)
Theorem output_path_shape (INPUT_NETCDF : string) :
  OUTPUT_HYPER INPUT_NETCDF <> INPUT_NETCDF
  /\ String.length INPUT_NETCDF < String.length (OUTPUT_HYPER INPUT_NETCDF)
  /\ exists pre suf,
       INPUT_NETCDF = pre ++ suf
       /\ String.length suf = Nat.min 3 (String.length INPUT_NETCDF)
       /\ OUTPUT_HYPER INPUT_NETCDF = pre ++ ".hyper".
Proof.
  split; [apply OUTPUT_HYPER_neq|].
  split; [rewrite OUTPUT_HYPER_length; lia|].
  set (l := list_ascii_of_string INPUT_NETCDF).
  set (k := String.length INPUT_NETCDF - 3).
  exists (string_of_list_ascii (take k l)), (string_of_list_ascii (drop k l)).
  split; [|split].
  - rewrite <- string_of_list_ascii_app, take_drop. unfold l.
    by rewrite string_of_list_ascii_of_string.
  - rewrite string_of_list_ascii_length, length_drop.
    unfold l, k. rewrite string_length_list. lia.
  - unfold OUTPUT_HYPER. by rewrite slice_to_minus3, substring_take.
Qed.

(** ** Keys of the measurement records *)






(** ** Counting the measurement records *)

Lemma sum_over_cons (a : nat) (l : list nat) (f : nat -> nat) :
  sum_over (a :: l) f = f a + sum_over l f.
Proof. reflexivity. Qed.

Lemma sum_over_app (l1 l2 : list nat) (f : nat -> nat) :
  sum_over (l1 ++ l2) f = sum_over l1 f + sum_over l2 f.
Proof. unfold sum_over. by rewrite fmap_app, sum_list_with_app. Qed.

Lemma sum_over_ext (l : list nat) (f g : nat -> nat) :
  (forall a, a ∈ l -> f a = g a) -> sum_over l f = sum_over l g.
Proof.
  induction l as [|a l IH]; intros H; [done|].
  rewrite !sum_over_cons, (H a), IH; [done| |by left].
  intros b Hb. apply H. by right.
Qed.

Lemma sum_over_add (l : list nat) (f g : nat -> nat) :
  sum_over l (fun a => f a + g a) = sum_over l f + sum_over l g.
Proof.
  induction l as [|a l IH]; [done|]. rewrite !sum_over_cons, IH. lia.
Qed.

Lemma sum_over_const (l : list nat) (k : nat) :
  sum_over l (fun _ => k) = length l * k.
Proof. induction l as [|a l IH]; [done|]. rewrite sum_over_cons, IH. simpl. lia. Qed.

Lemma sum_over_swap (l1 l2 : list nat) (g : nat -> nat -> nat) :
  sum_over l1 (fun x => sum_over l2 (fun y => g x y))
  = sum_over l2 (fun y => sum_over l1 (fun x => g x y)).
Proof.
  induction l1 as [|a l1 IH].
  - transitivity (sum_over l2 (fun _ => 0)); [|by apply sum_over_ext].
    rewrite sum_over_const. unfold sum_over. simpl. lia.
  - rewrite sum_over_cons, IH, <- sum_over_add.
    apply sum_over_ext. intros y _. by rewrite sum_over_cons.
Qed.

Lemma length_bind_sum {B : Type} (l : list nat) (f : nat -> list B) :
  length (l ≫= f) = sum_over l (fun a => length (f a)).
Proof.
  induction l as [|a l IH]; [done|].
  by rewrite bind_cons, length_app, sum_over_cons, IH.
Qed.

(** A sum over a list is the sum over its indices. *)
Lemma sum_list_lookup {A : Type} (G : A -> nat) (l : list A) :
  sum_list (G <$> l) = sum_over (seq 0 (length l)) (fun i => from_option G 0 (l !! i)).
Proof.
  induction l as [|a l IH] using rev_ind; [done|].
  rewrite fmap_app, sum_list_with_app, length_app, seq_app, sum_over_app, IH. simpl.
  f_equal.
  - apply sum_over_ext. intros i Hi%elem_of_seq.
    by rewrite lookup_app_l by lia.
  - rewrite sum_over_cons. unfold sum_over. simpl.
    rewrite lookup_app_r by lia. by rewrite Nat.sub_diag.
Qed.

Lemma count_true_concat (ls : list (list bool)) :
  length (filter (fun b : bool => b = true) (concat ls))
  = sum_list ((fun r => length (filter (fun b : bool => b = true) r)) <$> ls).
Proof.
  induction ls as [|r ls IH]; [done|].
  simpl. by rewrite filter_app, length_app, IH.
Qed.

Lemma count_true_concat2 (m : list (list (list bool))) :
  length (filter (fun b : bool => b = true) (concat (concat m)))
  = sum_list ((fun s => length (filter (fun b : bool => b = true) (concat s))) <$> m).
Proof.
  induction m as [|s m IH]; [done|].
  simpl. by rewrite concat_app, filter_app, length_app, IH.
Qed.

Lemma count_true_sum (r : list bool) :
  length (filter (fun b : bool => b = true) r)
  = sum_list (Nat.b2n <$> r).
Proof.
  induction r as [|[|] r IH]; [done| |].
  - rewrite filter_cons_True by done. simpl. by rewrite IH.
  - rewrite filter_cons_False by done. simpl. by rewrite IH.
Qed.

Lemma has_shape2_rows {A : Type} (rows cols : nat) (a : list (list A)) :
  has_shape2 rows cols a = true ->
  length a = rows /\ forall y r, a !! y = Some r -> length r = cols.
Proof.
  unfold has_shape2. intros [Hl%Nat.eqb_eq Hr]%andb_prop. split; [done|].
  intros y r Hy. rewrite forallb_forall in Hr.
  apply Nat.eqb_eq, Hr, list_elem_of_In. eapply list_elem_of_lookup_2, Hy.
Qed.

(** The masked entries of one time step, counted cell by cell. *)
Lemma slice_count (s : list (list bool)) (rows cols : nat) :
  has_shape2 rows cols s = true ->
  length (filter (fun b : bool => b = true) (concat s))
  = sum_over (seq 0 rows) (fun y =>
      sum_over (seq 0 cols) (fun x =>
        Nat.b2n (default false (r ← s !! y; r !! x)))).
Proof.
  intros [Hl Hr]%has_shape2_rows.
  rewrite count_true_concat, sum_list_lookup, Hl.
  apply sum_over_ext. intros y Hy%elem_of_seq.
  destruct (lookup_lt_is_Some_2 s y) as [r Hry]; [lia|].
  rewrite Hry. simpl.
  rewrite count_true_sum, sum_list_lookup, (Hr y r Hry).
  apply sum_over_ext. intros x Hx%elem_of_seq.
  destruct (lookup_lt_is_Some_2 r x) as [b Hb]; [rewrite (Hr y r Hry); lia|].
  by rewrite Hb.
Qed.

Lemma mask_count (m : list (list (list bool))) (n_t rows cols n : nat) :
  has_shape3 n_t rows cols m = true -> n <= n_t ->
  length (filter (fun b : bool => b = true) (concat (concat (take n m))))
  = sum_over (seq 0 n) (fun i =>
      sum_over (seq 0 rows) (fun y =>
        sum_over (seq 0 cols) (fun x => Nat.b2n (mask_bit m i y x)))).
Proof.
  intros Hm Hn.
  assert (Hlen : length m = n_t).
  { unfold has_shape3 in Hm. by apply andb_prop in Hm as [?%Nat.eqb_eq _]. }
  rewrite count_true_concat2, sum_list_lookup, length_take.
  replace (n `min` length m) with n by lia.
  apply sum_over_ext. intros i Hi%elem_of_seq.
  rewrite lookup_take_lt by lia.
  destruct (has_shape3_lookup n_t rows cols m i Hm) as (s & Hs & Hshape); [lia|].
  unfold mask_bit. rewrite Hs. simpl. by apply slice_count.
Qed.

Lemma mask_at_bit (nc : Dataset) (smi : masked (list (list (list float)))
                                          (list (list (list bool))))
    (i y x : nat) (b : bool) :
  var_SMI nc = Some smi -> mask_at nc i y x = Ok b ->
  mask_bit (mask smi) i y x = b.
Proof.
  unfold mask_at, mask_bit, mask_attribute, ma_getitem, getitem. intros ->. simpl.
  destruct (ma_data smi !! i); simpl; [|discriminate].
  destruct (mask smi !! i) as [s|]; simpl; [|discriminate].
  destruct (any_masked s); [|discriminate].
  destruct (s !! y) as [r|]; simpl; [|discriminate].
  destruct (r !! x) as [b'|]; simpl; [|discriminate].
  by intros [= <-].
Qed.

Lemma data_rows_length (nc : Dataset) (i x y : nat) (b : bool) :
  readable nc i x y -> mask_at nc i y x = Ok b ->
  length (data_rows nc i x y) + Nat.b2n b = 1.
Proof.
  intros [_ (m & Hm & Hread)] Hb. rewrite Hm in Hb. injection Hb as ->.
  unfold data_rows. rewrite Hm. destruct b; [done|].
  destruct (Hread eq_refl) as [[tv ->] [v ->]]. done.
Qed.

(** X11: in a completed run on a well-formed file, over time steps the
    file holds, the number of measurement records and the number of
    masked entries of the selected time steps add up to the number of
    (time step, cell) pairs: [data] has exactly one record per unmasked
    entry. *)
Theorem measurement_count (nc : Dataset) (rows cols n_steps : nat) (st : lists) :
  well_formed nc = true ->
  dimension_size nc "northing" = Ok rows ->
  dimension_size nc "easting" = Ok cols ->
  n_steps <= n_times nc ->
  extract nc n_steps = Ok st ->
  length (data st) + masked_count nc n_steps = n_steps * (rows * cols).
Proof.
  intros Hwf Hn He Hle Hx.
  unfold extract in Hx. rewrite Hn, He in Hx. simpl in Hx.
  apply extraction_loop_extend in Hx as [Hread ->]. simpl.
  destruct (well_formed_parts nc rows cols Hwf Hn He)
    as (t & la & lo & smi & Et & _ & _ & Hsmi & _ & _ & _ & _ & _ & Hshape).
  assert (Hnt : n_times nc = length t) by (unfold n_times; by rewrite Et).
  rewrite <- Hnt in Hshape.
  unfold masked_count. rewrite Hsmi.
  rewrite (mask_count _ _ _ _ _ Hshape Hle).
  unfold measurement_rows, range. rewrite !Nat.sub_0_r.
  rewrite length_bind_sum, <- sum_over_add.
  rewrite (sum_over_ext _ _ (fun _ => cols * rows)).
  { rewrite sum_over_const, length_seq. lia. }
  intros i Hi%elem_of_seq.
  rewrite length_bind_sum, sum_over_swap, <- sum_over_add.
  rewrite (sum_over_ext _ _ (fun _ => rows)).
  { rewrite sum_over_const, length_seq. lia. }
  intros x Hx%elem_of_seq.
  rewrite length_bind_sum, <- sum_over_add.
  rewrite (sum_over_ext _ _ (fun _ => 1)).
  { rewrite sum_over_const, length_seq. lia. }
  intros y Hy%elem_of_seq.
  assert (Hr : readable nc i x y) by (apply Hread; lia).
  destruct Hr as [Hg (b & Hb & Hrest)].
  rewrite (mask_at_bit nc smi i y x b Hsmi Hb).
  apply data_rows_length; [|done]. split; [done|]. eauto.
Qed.

Lemma measurement_count_witness :
  length [[PStr "0-0"; PInt 100; PFloat 0.5]; [PStr "0-1"; PInt 200; PFloat 0.25]]
  + masked_count two_step_grid 2 = 2 * (1 * 2).
Proof.
  apply (measurement_count two_step_grid 1 2 2
           {| data := [[PStr "0-0"; PInt 100; PFloat 0.5];
                       [PStr "0-1"; PInt 200; PFloat 0.25]];
              data_geom := [[PStr "0-0"; PFloat 51.5; PFloat 10.5];
                            [PStr "0-1"; PFloat 51.5; PFloat 10.75]] |});
    [reflexivity | reflexivity | reflexivity | vm_compute; lia
    | vm_compute; reflexivity].
Defined.

(** ** Nothing else in the lists, nothing left of an old output *)

(** X12: the lists of a completed run hold nothing but what the grid
    gives: every measurement record is [[combine y x, time[i], SMI[i][y][x]]]
    for a selected time step [i] and a cell [(y, x)] of the grid that is
    not masked there, and every geometry record is
    [[combine y x, lat[y][x], lon[y][x]]] for a cell of the grid. *)
Theorem records_come_from_the_grid (nc : Dataset) (rows cols n_steps : nat)
    (st : lists) :
  dimension_size nc "northing" = Ok rows ->
  dimension_size nc "easting" = Ok cols ->
  extract nc n_steps = Ok st ->
  (forall r, r ∈ data st ->
     exists i y x tv v,
       i < n_steps /\ y < rows /\ x < cols
       /\ mask_at nc i y x = Ok false
       /\ time_at nc i = Ok tv /\ SMI_at nc i y x = Ok v
       /\ r = [PStr (combine y x); tv; v])
  /\ (forall r, r ∈ data_geom st ->
        exists y x la lo,
          y < rows /\ x < cols
          /\ lat_at nc y x = Ok la /\ lon_at nc y x = Ok lo
          /\ r = [PStr (combine y x); la; lo]).
Proof.
  intros Hn He Hx. unfold extract in Hx. rewrite Hn, He in Hx. simpl in Hx.
  apply extraction_loop_extend in Hx as [_ ->]. simpl. split.
  - intros r (i & x & y & Hi & Hx & Hy & Hr)%elem_of_measurement_rows.
    apply elem_of_data_rows in Hr as (tv & v & Hm & Htv & Hv & ->).
    exists i, y, x, tv, v. auto 10.
  - intros r (i & x & y & Hi & Hx & Hy & Hr)%elem_of_geometry_rows.
    apply elem_of_geom_rows in Hr as (_ & la & lo & Hla & Hlo & ->).
    exists y, x, la, lo. auto 10.
Qed.

Lemma records_come_from_the_grid_witness :
  (forall r, r ∈ [[PStr "0-0"; PInt 100; PFloat 0.5]] ->
     exists i y x tv v,
       i < 1 /\ y < 1 /\ x < 2
       /\ mask_at two_step_grid i y x = Ok false
       /\ time_at two_step_grid i = Ok tv /\ SMI_at two_step_grid i y x = Ok v
       /\ r = [PStr (combine y x); tv; v])
  /\ (forall r, r ∈ [[PStr "0-0"; PFloat 51.5; PFloat 10.5];
                    [PStr "0-1"; PFloat 51.5; PFloat 10.75]] ->
        exists y x la lo,
          y < 1 /\ x < 2
          /\ lat_at two_step_grid y x = Ok la /\ lon_at two_step_grid y x = Ok lo
          /\ r = [PStr (combine y x); la; lo]).
Proof.
  apply (records_come_from_the_grid two_step_grid 1 2 1
           {| data := [[PStr "0-0"; PInt 100; PFloat 0.5]];
              data_geom := [[PStr "0-0"; PFloat 51.5; PFloat 10.5];
                            [PStr "0-1"; PFloat 51.5; PFloat 10.75]] |});
    vm_compute; reflexivity.
Defined.

(** X13: a Hyper database at the output path before a run has no part
    in a run that ends without an exception: with any database put there
    first, the run ends the same way and leaves the same files. *)
Theorem old_output_is_replaced (INPUT_NETCDF : string) (n_steps : nat)
    (fs : gmap string file) (old : Database) :
  snd (notebook INPUT_NETCDF n_steps fs) = Ok tt ->
  notebook INPUT_NETCDF n_steps (<[OUTPUT_HYPER INPUT_NETCDF := HyperFile old]> fs)
  = notebook INPUT_NETCDF n_steps fs.
Proof.
  unfold notebook.
  rewrite read_stage_other_file by apply OUTPUT_HYPER_neq.
  destruct (read_stage fs INPUT_NETCDF) as [[[nc y_size] x_size]|e]; [|discriminate].
  destruct (extraction_loop nc y_size x_size n_steps empty_lists) as [st|e];
    [|discriminate].
  destruct (table_writer_cases (OUTPUT_HYPER INPUT_NETCDF) st) as (db & r & Hw).
  pose proof (OUTPUT_HYPER_not_log INPUT_NETCDF) as Hlog.
  rewrite !Hw, HyperProcess_start_insert by done.
  assert (U : destination_usable
                (<[OUTPUT_HYPER INPUT_NETCDF := HyperFile old]> (HyperProcess_start fs))
                (OUTPUT_HYPER INPUT_NETCDF) = true)
    by (unfold destination_usable; by rewrite lookup_insert_eq).
  rewrite U.
  destruct (destination_usable (HyperProcess_start fs) (OUTPUT_HYPER INPUT_NETCDF));
    [|discriminate].
  intros _. by rewrite insert_insert_eq.
Qed.

Lemma old_output_is_replaced_witness :
  notebook "smi.nc" 1 (<[OUTPUT_HYPER "smi.nc" := HyperFile new_database]> sample_files)
  = notebook "smi.nc" 1 sample_files.
Proof.
  apply (old_output_is_replaced "smi.nc" 1 sample_files new_database).
  vm_compute. reflexivity.
Defined.

(** X17: when the read stage and the loop end without an exception but
    the output path holds something that is not a Hyper database, the run
    ends with [HyperException] from the connection; what was at the output
    path stays, and only the log of the Hyper process is new. *)
Theorem foreign_output_is_kept (INPUT_NETCDF : string) (n_steps : nat)
    (fs : gmap string file) (nc : Dataset) (y_size x_size : nat) (st : lists) :
  read_stage fs INPUT_NETCDF = Ok (nc, y_size, x_size) ->
  extraction_loop nc y_size x_size n_steps empty_lists = Ok st ->
  destination_usable fs (OUTPUT_HYPER INPUT_NETCDF) = false ->
  notebook INPUT_NETCDF n_steps fs = (HyperProcess_start fs, Raise HyperException)
  /\ HyperProcess_start fs !! OUTPUT_HYPER INPUT_NETCDF
     = fs !! OUTPUT_HYPER INPUT_NETCDF.
Proof.
  intros R X Hu.
  pose proof (OUTPUT_HYPER_not_log INPUT_NETCDF) as Hlog.
  split; [|apply HyperProcess_start_lookup; auto].
  unfold notebook. rewrite R, X.
  destruct (table_writer_cases (OUTPUT_HYPER INPUT_NETCDF) st) as (db & r & Hw).
  by rewrite Hw, destination_usable_start, Hu.
Qed.

Lemma foreign_output_is_kept_witness :
  notebook "smi.nc" 1 (<["smi.hyper" := OtherFile]> sample_files)
  = (HyperProcess_start (<["smi.hyper" := OtherFile]> sample_files),
     Raise HyperException)
  /\ HyperProcess_start (<["smi.hyper" := OtherFile]> sample_files)
       !! OUTPUT_HYPER "smi.nc"
     = <["smi.hyper" := OtherFile]> sample_files !! OUTPUT_HYPER "smi.nc".
Proof.
  eapply (foreign_output_is_kept "smi.nc" 1 _ example_grid 2 2);
    vm_compute; reflexivity.
Defined.
